(** * AdOps trafficking core: payload router and QA evaluator

  A shallow embedding of [src/trafficking/engine.py] (class
  [TraffickingEngine]) and [src/trafficking/qa_engine.py] (class
  [QAEngine]), with the properties of the routing and QA logic.

  Python dictionaries are finite maps with string keys; the field values of
  a ticket or a campaign record are the Python scalars [None], [str] and
  [int]; the parameters of a payload may also be lists.  An operation that
  raises in Python returns [Raise] here.  The timestamp that the dataclass
  [TraffickingPayload] takes from [datetime.now()] is read from an explicit
  clock. *)

From Stdlib Require Import String Ascii ZArith List Bool DecimalString Lia.
From stdpp Require Import gmap strings.

Open Scope string_scope.
Set Warnings "-register-all".

(** ** The Python fragment the two modules use *)

Module Py.

(** Values stored in the [Dict[str, Any]] records of tickets and campaigns. *)
Inductive scalar : Type :=
| PNone
| PStr (s : string)
| PInt (z : Z).

(** Values stored in a payload's parameter dictionary. *)
Inductive value : Type :=
| Scalar (x : scalar)
| PList (l : list value).

Inductive exn : Type :=
| TypeError
| AttributeError.

(** Outcome of an expression that may raise. *)
Inductive res (A : Type) : Type :=
| Ok (a : A)
| Raise (e : exn).
Arguments Ok {A} a.
Arguments Raise {A} e.

Definition res_bind {A B} (r : res A) (k : A -> res B) : res B :=
  match r with
  | Ok a => k a
  | Raise e => Raise e
  end.

Definition res_map {A B} (f : A -> B) (r : res A) : res B :=
  res_bind r (fun a => Ok (f a)).

(** [d.get(k, dflt)] *)
Definition get {V} (d : gmap string V) (k : string) (dflt : V) : V :=
  match d !! k with
  | Some v => v
  | None => dflt
  end.

(** [k in d] for a dictionary [d] *)
Definition has_key {V} (d : gmap string V) (k : string) : bool :=
  match d !! k with
  | Some _ => true
  | None => false
  end.

(** [s.startswith(p)] *)
Fixpoint startswith (s p : string) {struct p} : bool :=
  match p with
  | EmptyString => true
  | String a p' =>
      match s with
      | EmptyString => false
      | String b s' => Ascii.eqb a b && startswith s' p'
      end
  end.

(** [sub in s] for two strings: [sub] occurs in [s] as a contiguous block. *)
Fixpoint contains (sub s : string) : bool :=
  startswith s sub ||
  match s with
  | EmptyString => false
  | String _ s' => contains sub s'
  end.

(** [s.count(c)] for a one-character [c]. *)
Fixpoint count_char (c : ascii) (s : string) : nat :=
  match s with
  | EmptyString => 0
  | String a s' => (if Ascii.eqb a c then 1 else 0) + count_char c s'
  end.

(** [x == s] where [s] is a string literal. *)
Definition eq_str (x : scalar) (s : string) : bool :=
  match x with
  | PStr s' => String.eqb s' s
  | _ => false
  end.

Definition value_eq_str (v : value) (s : string) : bool :=
  match v with
  | Scalar x => eq_str x s
  | PList _ => false
  end.

(** [sub in x]: a substring test on a string; [None] and integers are not
    iterable. *)
Definition py_in (sub : string) (x : scalar) : res bool :=
  match x with
  | PStr s => Ok (contains sub s)
  | _ => Raise TypeError
  end.

(** [x.startswith(p)]: only strings have the method. *)
Definition py_startswith (x : scalar) (p : string) : res bool :=
  match x with
  | PStr s => Ok (startswith s p)
  | _ => Raise AttributeError
  end.

(** [v.count(c)] with [c] a one-character string: occurrences of [c] in a
    string, elements equal to [c] in a list; [None] and integers have no
    such method. *)
Definition py_count (v : value) (c : ascii) : res nat :=
  match v with
  | Scalar (PStr s) => Ok (count_char c s)
  | Scalar _ => Raise AttributeError
  | PList l =>
      Ok (length (List.filter (fun e => value_eq_str e (String c EmptyString)) l))
  end.

(** Truth value of a scalar, as tested by [if x] and [not x]. *)
Definition truthy (x : scalar) : bool :=
  match x with
  | PNone => false
  | PStr s => negb (String.eqb s "")
  | PInt z => negb (Z.eqb z 0)
  end.

(** [str(x)], which is what a replacement field [{x}] of an f-string
    inserts. *)
Definition py_str (x : scalar) : string :=
  match x with
  | PNone => "None"
  | PStr s => s
  | PInt z => NilZero.string_of_int (Z.to_int z)
  end.

End Py.
Import Py.

#[global] Instance res_mret : MRet res := @Ok.
#[global] Instance res_mbind : MBind res := fun A B k r => res_bind r k.
#[global] Instance res_fmap : FMap res := @res_map.

(** ** [engine.py]: the payload dataclass and the clock *)

(** The [k]-th reading of [datetime.now().isoformat()] made by a call. *)
Definition Clock : Type := nat -> string.

(** Computations of [engine.py]: they may raise, and they read the clock; the
    counter is the number of readings made so far. *)
Definition M (A : Type) : Type := Clock -> nat -> res (A * nat).

#[global] Instance M_mret : MRet M := fun A a _ n => Ok (a, n).
#[global] Instance M_mbind : MBind M := fun A B k m clk n =>
  match m clk n with
  | Ok (a, n') => k a clk n'
  | Raise e => Raise e
  end.

Definition now : M string := fun clk n => Ok (clk n, S n).

Definition lift {A} (r : res A) : M A := fun _ n =>
  match r with
  | Ok a => Ok (a, n)
  | Raise e => Raise e
  end.

Record TraffickingPayload : Type := mkPayload {
  campaign_id : scalar;
  platform : scalar;
  action : string;
  payload : gmap string value;
  status : string;
  response : option (gmap string value);
  created_at : string
}.

(** The constructor call [TraffickingPayload(campaign_id=.., platform=..,
    action=.., payload=..)]: [status] and [response] take their defaults and
    [created_at] its default factory. *)
Definition new_payload (camp_id plat : scalar) (act : string)
    (params : gmap string value) : M TraffickingPayload :=
  t ← now;
  mret {| campaign_id := camp_id; platform := plat; action := act;
          payload := params; status := "Pending"; response := None;
          created_at := t |}.

(** A ticket or campaign record, [Dict[str, Any]] in the source. *)
Abbreviation Dict := (gmap string scalar).

(** ** [engine.py]: class [TraffickingEngine] *)

Definition get_eve_version (platform channel_mapped : string) : string :=
  if String.eqb platform "CM360" &&
     existsb (String.eqb channel_mapped) ["ProgAudio"; "ProgCTV"; "ProgNative"]
  then "V2.2"
  else if String.eqb platform "CM360" && String.eqb channel_mapped "YouTube"
  then "V2.1"
  else if String.eqb platform "Yahoo DSP" then "V2"
  else if String.eqb platform "Amazon DSP" then "V3"
  else if String.eqb platform "DV360" then "V1"
  else "V1".

Definition build_placement_taxonomy (ticket campaign : Dict) : string :=
  let camp_name := get campaign "campaign_name" (PStr "UNKNOWN_CAMP") in
  let geo := get campaign "targeting_geo"
               (get ticket "targeting_geo" (PStr "UNKNOWN_GEO")) in
  let lang := get campaign "language" (PStr "ENG") in
  let brand := get campaign "brand_code"
                 (get ticket "brand" (PStr "UNKNOWN_BRAND")) in
  let title := get campaign "title_name" (PStr "UNKNOWN_TITLE") in
  let objective := get campaign "campaign_objective" (PStr "Acq") in
  let channel := get campaign "channel_mapped" (PStr "ProgDisplay") in
  py_str camp_name +:+ "|" +:+ py_str geo +:+ "|" +:+ py_str lang +:+ "|" +:+
  py_str brand +:+ "|" +:+ py_str title +:+ "|" +:+ py_str objective +:+ "|" +:+
  py_str channel.

(** [campaign.get(k)], whose default is [None], stored as a parameter. *)
Definition field (campaign : Dict) (k : string) : value :=
  Scalar (get campaign k PNone).

Definition _handle_new_campaign_setup (ticket campaign : Dict)
    (platform : scalar) : M (list TraffickingPayload) :=
  let camp_id := get ticket "campaign_id" (PStr "CMP-UNKNOWN") in
  let taxonomy := build_placement_taxonomy ticket campaign in
  p1 ← new_payload camp_id (PStr "CM360") "CREATE_CAMPAIGN_SHELL"
         {[ "name" := Scalar (get campaign "campaign_name" (PStr "New Campaign"));
            "start_date" := field campaign "start_date" ]};
  p2 ← new_payload camp_id (PStr "CM360") "CREATE_PLACEMENT"
         {[ "placement_name" := Scalar (PStr taxonomy);
            "site" := Scalar platform ]};
  p3 ← new_payload camp_id platform "CREATE_INSERTION_ORDER"
         {[ "budget" := Scalar (get campaign "budget_usd" (PInt 0));
            "targeting" := field campaign "audience_detailed" ]};
  mret [p1; p2; p3].

Definition _handle_creative_rotation (ticket campaign : Dict)
    (platform : scalar) : M (list TraffickingPayload) :=
  let camp_id := get ticket "campaign_id" (PStr "CMP-UNKNOWN") in
  p ← new_payload camp_id (PStr "CM360") "ROTATE_CREATIVES"
        {[ "placements" :=
             PList [Scalar (PStr (build_placement_taxonomy ticket campaign))];
           "new_assets" :=
             PList [Scalar (PStr "asset_1.mp4"); Scalar (PStr "asset_2.jpg")] ]};
  mret [p].

Definition _handle_budget_change (ticket campaign : Dict)
    (platform : scalar) : M (list TraffickingPayload) :=
  let camp_id := get ticket "campaign_id" (PStr "CMP-UNKNOWN") in
  p ← new_payload camp_id platform "UPDATE_BUDGET"
        {[ "new_budget" := Scalar (get campaign "budget_usd" (PInt 0)) ]};
  mret [p].

Definition _handle_new_line_item (ticket campaign : Dict)
    (platform : scalar) : M (list TraffickingPayload) :=
  let camp_id := get ticket "campaign_id" (PStr "CMP-UNKNOWN") in
  p ← new_payload camp_id platform "CREATE_LINE_ITEM"
        {[ "targeting" := field campaign "audience_detailed" ]};
  mret [p].

Definition _handle_targeting_update (ticket campaign : Dict)
    (platform : scalar) : M (list TraffickingPayload) :=
  let camp_id := get ticket "campaign_id" (PStr "CMP-UNKNOWN") in
  p ← new_payload camp_id platform "UPDATE_TARGETING"
        {[ "new_targeting" := field campaign "audience_detailed";
           "geo" := field campaign "targeting_geo" ]};
  mret [p].

Definition _handle_tag_implementation (ticket campaign : Dict)
    (platform : scalar) : M (list TraffickingPayload) :=
  let camp_id := get ticket "campaign_id" (PStr "CMP-UNKNOWN") in
  p ← new_payload camp_id (PStr "CM360") "CREATE_FLOODLIGHT_TAG"
        {[ "conversion_type" := Scalar (PStr "Subscription");
           "counting_method" := Scalar (PStr "STANDARD") ]};
  mret [p].

(** [a or b] where both operands may raise: [b] is evaluated only when [a]
    is false. *)
Definition or_else (a b : res bool) : res bool :=
  res_bind a (fun x : bool => if x then Ok true else b).

Definition process_ticket (ticket_fields campaign_fields : Dict)
    : M (list TraffickingPayload) :=
  let req_type := get ticket_fields "request_type" (PStr "") in
  let platform := get ticket_fields "platform" (PStr "DV360") in
  c1 ← lift (or_else (py_in "New Campaign" req_type)
                     (py_in "New Placements" req_type));
  if c1 : bool then _handle_new_campaign_setup ticket_fields campaign_fields platform
  else
    c2 ← lift (or_else (py_in "Creative Rotation" req_type)
                       (py_in "Retrafficking" req_type));
    if c2 : bool then _handle_creative_rotation ticket_fields campaign_fields platform
    else if eq_str req_type "Budget Change"
    then _handle_budget_change ticket_fields campaign_fields platform
    else if eq_str req_type "New Line Item"
    then _handle_new_line_item ticket_fields campaign_fields platform
    else if eq_str req_type "Targeting Update"
    then _handle_targeting_update ticket_fields campaign_fields platform
    else if eq_str req_type "Site Tagging" || eq_str req_type "Kochava"
    then _handle_tag_implementation ticket_fields campaign_fields platform
    else mret [].

(** The router as its caller sees it: one call, started on a fresh count of
    clock readings. *)
Definition route (clk : Clock) (ticket campaign : Dict)
    : res (list TraffickingPayload) :=
  fst <$> process_ticket ticket campaign clk 0.

(** ** [qa_engine.py]: class [QAEngine] *)

(** The dictionary [{"check": .., "result": .., "details": ..}] that every
    check returns. *)
Record QAResult : Type := mkQA {
  check : string;
  result : string;
  details : string
}.

Definition check_spec_compliance (payloads : list TraffickingPayload)
    (campaign : Dict) : res QAResult :=
  mret (mkQA "Spec Compliance"
             (match payloads with [] => "Fail" | _ :: _ => "Pass" end)
             "Creative matches spec.").

Definition check_tracking (payloads : list TraffickingPayload)
    (campaign : Dict) : res QAResult :=
  let missing :=
    List.filter (fun p => String.eqb (action p) "CREATE_PLACEMENT" &&
                     negb (has_key (payload p) "tracking_url")) payloads in
  mret (mkQA "Tracking" "Pass" "Tracking tags configured.").

Definition check_targeting (payloads : list TraffickingPayload)
    (campaign : Dict) : res QAResult :=
  let geo := get campaign "targeting_geo" PNone in
  if negb (truthy geo)
  then mret (mkQA "Targeting" "Fail" "Missing geo targeting.")
  else mret (mkQA "Targeting" "Pass" ("Geo targeting found: " +:+ py_str geo)).

Definition check_frequency_cap (payloads : list TraffickingPayload)
    (campaign : Dict) : res QAResult :=
  let camp_name := get campaign "campaign_name" (PStr "") in
  c ← or_else (py_in "BES" camp_name) (py_in "Sponsorship" camp_name);
  if c : bool
  then mret (mkQA "Frequency Cap" "Pass" "Frequency cap set for Sponsorship.")
  else mret (mkQA "Frequency Cap" "Pass" "Frequency cap standard.").

Definition check_content_exclusions (payloads : list TraffickingPayload)
    (campaign : Dict) : res QAResult :=
  let camp_name := get campaign "campaign_name" (PStr "") in
  c ← or_else (py_in "BES" camp_name) (py_in "Sponsorship" camp_name);
  if c : bool
  then mret (mkQA "Content Exclusions" "Needs Review"
                  "Sponsorship requires S&P review.")
  else mret (mkQA "Content Exclusions" "Pass" "Standard exclusions applied.").

Definition check_landing_page (payloads : list TraffickingPayload)
    (campaign : Dict) : res QAResult :=
  let url := get campaign "landing_page" (PStr "https://disneyplus.com") in
  https ← py_startswith url "https://";
  if negb https
  then mret (mkQA "Landing Page" "Fail"
                  ("Non-HTTPS URL provided: " +:+ py_str url))
  else mret (mkQA "Landing Page" "Pass" "Click-through URLs act recursively.").

(** The [for] loop of [check_taxonomy] over the placement payloads. *)
Fixpoint taxonomy_loop (placement_payloads : list TraffickingPayload)
    : res QAResult :=
  match placement_payloads with
  | [] => mret (mkQA "Taxonomy Validation" "Pass" "Taxonomy valid.")
  | p :: rest =>
      let name := get (payload p) "placement_name" (Scalar (PStr "")) in
      n ← py_count name "|"%char;
      if Nat.ltb n 6
      then mret (mkQA "Taxonomy Validation" "Fail"
                      "Placement name does not follow pipe-delimited convention.")
      else taxonomy_loop rest
  end.

Definition check_taxonomy (payloads : list TraffickingPayload)
    (campaign : Dict) : res QAResult :=
  let placement_payloads :=
    List.filter (fun p => String.eqb (action p) "CREATE_PLACEMENT") payloads in
  taxonomy_loop placement_payloads.

Definition check_floodlight_tags (payloads : list TraffickingPayload)
    (campaign : Dict) : res QAResult :=
  mret (mkQA "Floodlight Tags" "Pass" "Conversion tags correctly assigned.").

Definition run_all_checks (payloads : list TraffickingPayload)
    (campaign : Dict) : res (list QAResult) :=
  match payloads with
  | [] => mret [mkQA "Spec Compliance" "Fail" "No payloads to QA."]
  | _ :: _ =>
      r1 ← check_spec_compliance payloads campaign;
      r2 ← check_tracking payloads campaign;
      r3 ← check_targeting payloads campaign;
      r4 ← check_frequency_cap payloads campaign;
      r5 ← check_content_exclusions payloads campaign;
      r6 ← check_landing_page payloads campaign;
      r7 ← check_taxonomy payloads campaign;
      r8 ← check_floodlight_tags payloads campaign;
      mret [r1; r2; r3; r4; r5; r6; r7; r8]
  end.

(** ** Typing of the inputs

    The source annotates every record as [Dict[str, Any]].  The data model
    gives the fields types; the predicates below keep only what the code
    relies on: the fields it applies string operations to hold strings when
    they are present. *)

Definition str_or_absent (d : Dict) (k : string) : bool :=
  match d !! k with
  | Some (PStr _) | None => true
  | Some _ => false
  end.

Definition ticket_typed (ticket : Dict) : bool :=
  str_or_absent ticket "request_type".

Definition campaign_typed (campaign : Dict) : bool :=
  str_or_absent campaign "campaign_name" &&
  str_or_absent campaign "landing_page".

(** A CREATE_PLACEMENT payload names its placement by a string. *)
Definition payload_typed (p : TraffickingPayload) : bool :=
  if String.eqb (action p) "CREATE_PLACEMENT"
  then match payload p !! "placement_name" with
       | Some (Scalar (PStr _)) | None => true
       | Some _ => false
       end
  else true.

Definition payloads_typed (ps : list TraffickingPayload) : bool :=
  forallb payload_typed ps.

(** ** Reference definitions for the stated properties *)

(** The fields of a pipe-delimited name, joined. *)
Fixpoint join_pipe (fields : list string) : string :=
  match fields with
  | [] => ""
  | [f] => f
  | f :: rest => f +:+ "|" +:+ join_pipe rest
  end.

(** The seven resolved fields that [build_placement_taxonomy] formats, in
    the order of its replacement fields. *)
Definition taxonomy_fields (ticket campaign : Dict) : list string :=
  [ py_str (get campaign "campaign_name" (PStr "UNKNOWN_CAMP"));
    py_str (get campaign "targeting_geo"
              (get ticket "targeting_geo" (PStr "UNKNOWN_GEO")));
    py_str (get campaign "language" (PStr "ENG"));
    py_str (get campaign "brand_code"
              (get ticket "brand" (PStr "UNKNOWN_BRAND")));
    py_str (get campaign "title_name" (PStr "UNKNOWN_TITLE"));
    py_str (get campaign "campaign_objective" (PStr "Acq"));
    py_str (get campaign "channel_mapped" (PStr "ProgDisplay")) ].

(** The taxonomy string as the specification words it: seven fields, each
    with a fixed fallback, the geo alone preferring a ticket-level value. *)
Definition spec_taxonomy (ticket campaign : Dict) : string :=
  join_pipe
    [ py_str (get campaign "campaign_name" (PStr "UNKNOWN_CAMP"));
      py_str (get campaign "targeting_geo"
                (get ticket "targeting_geo" (PStr "UNKNOWN_GEO")));
      py_str (get campaign "language" (PStr "ENG"));
      py_str (get campaign "brand_code" (PStr "UNKNOWN_BRAND"));
      py_str (get campaign "title_name" (PStr "UNKNOWN_TITLE"));
      py_str (get campaign "campaign_objective" (PStr "Acq"));
      py_str (get campaign "channel_mapped" (PStr "ProgDisplay")) ].

(** The automation-tier table of the specification: a row is a platform, the
    channels it covers ([None] for any channel) and the tier; the first
    matching row decides and the default is "V1". *)
Definition tier_table : list (string * option (list string) * string) :=
  [ ("CM360", Some ["ProgAudio"; "ProgCTV"; "ProgNative"], "V2.2");
    ("CM360", Some ["YouTube"], "V2.1");
    ("Yahoo DSP", None, "V2");
    ("Amazon DSP", None, "V3");
    ("DV360", None, "V1") ].

Definition row_matches (platform channel : string)
    (row : string * option (list string) * string) : bool :=
  let '(plat, channels, _) := row in
  String.eqb platform plat &&
  match channels with
  | None => true
  | Some chs => existsb (String.eqb channel) chs
  end.

Definition classify_automation_tier (platform channel : string) : string :=
  match find (row_matches platform channel) tier_table with
  | Some (_, _, tier) => tier
  | None => "V1"
  end.

(** The names of the eight checks, in declaration order. *)
Definition check_names : list string :=
  [ "Spec Compliance"; "Tracking"; "Targeting"; "Frequency Cap";
    "Content Exclusions"; "Landing Page"; "Taxonomy Validation";
    "Floodlight Tags" ].

(** Two payloads that agree on every field but the creation timestamp. *)
Definition same_but_created_at (p q : TraffickingPayload) : Prop :=
  campaign_id p = campaign_id q /\ platform p = platform q /\
  action p = action q /\ payload p = payload q /\
  status p = status q /\ response p = response q.

(** What every payload built by one call has in common. *)
Definition fresh_for (ticket : Dict) (p : TraffickingPayload) : Prop :=
  status p = "Pending" /\ response p = None /\
  campaign_id p = match ticket !! "campaign_id" with
                  | Some ref => ref
                  | None => PStr "CMP-UNKNOWN"
                  end.

(** Two calls of the router in a row, on the same arguments. *)
Definition route_twice (clk : Clock) (ticket campaign : Dict)
    : res (list TraffickingPayload * list TraffickingPayload) :=
  fst <$> (first ← process_ticket ticket campaign;
           second ← process_ticket ticket campaign;
           mret (first, second)) clk 0.

(** A request type that no branch of the router recognises. *)
Definition unrecognized (s : string) : bool :=
  negb (contains "New Campaign" s || contains "New Placements" s ||
        contains "Creative Rotation" s || contains "Retrafficking" s ||
        String.eqb s "Budget Change" || String.eqb s "New Line Item" ||
        String.eqb s "Targeting Update" || String.eqb s "Site Tagging" ||
        String.eqb s "Kochava").

(** ** Sample inputs *)

(** The ticket and campaign of [tests/test_trafficking.py]. *)
Definition sample_ticket : Dict :=
  {[ "request_type" := PStr "New Campaign";
     "platform" := PStr "DV360";
     "campaign_id" := PStr "CMP-9999" ]}.

Definition sample_campaign : Dict :=
  {[ "campaign_name" := PStr "DBUN_Bundle_Acq_US";
     "start_date" := PStr "2026-03-01";
     "budget_usd" := PInt 50000;
     "audience_detailed" := PStr "A18-49" ]}.

Definition taxonomy_campaign : Dict :=
  {[ "campaign_name" := PStr "DBUN_Bundle_Acq_US_ProgDisplay";
     "targeting_geo" := PStr "US";
     "language" := PStr "ENG";
     "brand_code" := PStr "DBUN";
     "title_name" := PStr "Bundle";
     "campaign_objective" := PStr "Acq";
     "channel_mapped" := PStr "ProgDisplay" ]}.

(** The payload of [tests/test_qa.py]. *)
Definition sample_payload : TraffickingPayload :=
  {| campaign_id := PStr "CMP-1"; platform := PStr "CM360"; action := "CREATE";
     payload := ∅; status := "Pending"; response := None;
     created_at := "2026-03-01T09:00:00.000000" |}.

Definition sponsorship_campaign : Dict :=
  {[ "campaign_name" := PStr "ESP_Sports_Sponsorship_US" ]}.

Definition http_campaign : Dict :=
  {[ "landing_page" := PStr "http://disney.com" ]}.

(** A ticket that carries a brand, for a campaign that has no brand code. *)
Definition branded_ticket : Dict := {[ "brand" := PStr "DIS" ]}.

(** A campaign whose name contains a pipe. *)
Definition piped_campaign : Dict := {[ "campaign_name" := PStr "A|B" ]}.

Definition budget_ticket : Dict := {[ "request_type" := PStr "Budget Change" ]}.

(** A clock that shows a constant time, and one that advances between two
    readings. *)
Definition frozen_clock : Clock := fun _ => "2026-03-01T09:00:00.000000".

Definition ticking_clock : Clock := fun k =>
  match k with
  | 0 => "2026-03-01T09:00:00.000000"
  | _ => "2026-03-01T09:00:00.000125"
  end.

(** ** Reference definitions for the properties of the handlers and checks *)

(** The two membership tests that [process_ticket] makes first. *)
Definition is_setup (s : string) : bool :=
  contains "New Campaign" s || contains "New Placements" s.

Definition is_rotation (s : string) : bool :=
  contains "Creative Rotation" s || contains "Retrafficking" s.

(** The action tags that the handlers write. *)
Definition actions : list string :=
  [ "CREATE_CAMPAIGN_SHELL"; "CREATE_PLACEMENT"; "CREATE_INSERTION_ORDER";
    "ROTATE_CREATIVES"; "UPDATE_BUDGET"; "CREATE_LINE_ITEM";
    "UPDATE_TARGETING"; "CREATE_FLOODLIGHT_TAG" ].

(** The version tags that [get_eve_version] returns. *)
Definition tiers : list string := ["V1"; "V2"; "V2.1"; "V2.2"; "V3"].

(** The values that the checks write in [result]. *)
Definition verdicts : list string := ["Pass"; "Fail"; "Needs Review"].

(** The placement name that [check_taxonomy] reads from a payload: the
    string under "placement_name", the empty string when the key is
    missing. *)
Definition placement_name (p : TraffickingPayload) : string :=
  match payload p !! "placement_name" with
  | Some (Scalar (PStr s)) => s
  | _ => ""
  end.

(** A payload that [check_taxonomy] lets through: not a placement, or a
    placement whose name has at least six pipes. *)
Definition placement_ok (p : TraffickingPayload) : bool :=
  if String.eqb (action p) "CREATE_PLACEMENT"
  then Nat.leb 6 (count_char "|" (placement_name p))
  else true.

(** A placement whose name is [None] or a number. *)
Definition placement_unnamed (p : TraffickingPayload) : bool :=
  String.eqb (action p) "CREATE_PLACEMENT" &&
  match payload p !! "placement_name" with
  | Some (Scalar PNone) | Some (Scalar (PInt _)) => true
  | _ => false
  end.

Definition pipe_free (f : string) : Prop := count_char "|" f = 0.

(** A result with one of the three verdicts and the name of one of the
    eight checks. *)
Definition well_formed (r : QAResult) : Prop :=
  In (result r) verdicts /\ In (check r) check_names.

(** Every result is "Pass". *)
Definition all_pass (rs : list QAResult) : bool :=
  forallb (fun r => String.eqb (result r) "Pass") rs.

(** The ticket and campaign of the rotation test of
    [tests/test_trafficking.py]. *)
Definition rotation_ticket : Dict :=
  {[ "request_type" := PStr "Creative Rotation";
     "platform" := PStr "Meta";
     "campaign_id" := PStr "CMP-1234" ]}.

Definition rotation_campaign : Dict :=
  {[ "campaign_name" := PStr "Test_Campaign" ]}.

Definition line_item_ticket : Dict :=
  {[ "request_type" := PStr "New Line Item"; "platform" := PStr "TikTok" ]}.

Definition targeting_ticket : Dict :=
  {[ "request_type" := PStr "Targeting Update" ]}.

Definition tagging_ticket : Dict :=
  {[ "request_type" := PStr "Kochava"; "platform" := PStr "Meta" ]}.

(** A ticket as the orchestrator maps a record without request type. *)
Definition untyped_ticket : Dict :=
  {[ "request_type" := PNone; "platform" := PStr "DV360" ]}.

Definition no_type_ticket : Dict := {[ "platform" := PStr "DV360" ]}.

(** The campaign of [test_run_all_checks_count]. *)
Definition passing_campaign : Dict :=
  {[ "landing_page" := PStr "https://disney.com";
     "targeting_geo" := PStr "US" ]}.

Definition null_page_campaign : Dict :=
  {[ "campaign_name" := PStr "Demo Campaign"; "landing_page" := PNone ]}.

(** Placements with a short name, with a well-formed name and with no string
    for a name. *)
Definition short_placement : TraffickingPayload :=
  {| campaign_id := PStr "CMP-1"; platform := PStr "CM360";
     action := "CREATE_PLACEMENT";
     payload := {[ "placement_name" := Scalar (PStr "PLUS_Loki_Acq_US") ]};
     status := "Pending"; response := None;
     created_at := "2026-03-01T09:00:00.000000" |}.

Definition good_placement : TraffickingPayload :=
  {| campaign_id := PStr "CMP-1"; platform := PStr "CM360";
     action := "CREATE_PLACEMENT";
     payload := {[ "placement_name" := Scalar (PStr "a|b|c|d|e|f|g") ]};
     status := "Pending"; response := None;
     created_at := "2026-03-01T09:00:00.000000" |}.

Definition unnamed_placement : TraffickingPayload :=
  {| campaign_id := PStr "CMP-1"; platform := PStr "CM360";
     action := "CREATE_PLACEMENT";
     payload := {[ "placement_name" := Scalar PNone ]};
     status := "Pending"; response := None;
     created_at := "2026-03-01T09:00:00.000000" |}.

(** ** [orchestrator.py]: what [run_pipeline] hands to the two engines *)

(** The demo record that [run_pipeline] puts in the place of an empty
    one. *)
Definition demo_fields : Dict :=
  {[ "campaign_name" := PStr "Demo Campaign";
     "targeting_geo" := PStr "US";
     "budget_usd" := PInt 1000 ]}.

(** The dictionary [cmp_mapped] that [run_pipeline] passes to both engines,
    as a function of the fields of the campaign record (the empty dictionary
    when the ticket has no campaign record): an empty record is first
    replaced by the demo record, then nine keys are copied with their
    defaults. *)
Definition cmp_mapped (record_fields : Dict) : Dict :=
  let campaign_fields :=
    if decide (record_fields = ∅) then demo_fields else record_fields in
  {[ "campaign_name" := get campaign_fields "campaign_name" (PStr "DEMO_CAMP");
     "targeting_geo" := get campaign_fields "targeting_geo" (PStr "US");
     "brand_code" := get campaign_fields "brand_code" (PStr "DIS");
     "title_name" := get campaign_fields "title_name" (PStr "Loki");
     "campaign_objective" :=
       get campaign_fields "campaign_objective" (PStr "Acq");
     "channel_mapped" :=
       get campaign_fields "channel_mapped" (PStr "ProgDisplay");
     "start_date" := get campaign_fields "start_date" (PStr "2026-03-01");
     "budget_usd" := get campaign_fields "budget_usd" (PInt 10000);
     "audience_detailed" :=
       get campaign_fields "audience_detailed" (PStr "A18-34") ]}.

(** The list [failures] that [run_pipeline] collects from the results of
    the evaluator: those whose result is "Fail" or "Needs Review". *)
Definition failures (check_results : list QAResult) : list QAResult :=
  List.filter
    (fun res => existsb (String.eqb (result res)) ["Fail"; "Needs Review"])
    check_results.

(** The ticket [tkt_mapped] that [run_pipeline] builds for a record that
    has none of the five fields it reads: every [fields.get] without default
    gives [None]. *)
Definition blank_record_ticket : Dict :=
  {[ "request_type" := PNone;
     "platform" := PStr "DV360";
     "targeting_geo" := PNone;
     "brand" := PNone;
     "campaign_id" := PNone ]}.

(** Campaigns with a field that is not a string: a sponsorship whose landing
    page is [None], and a numeric name with a landing page that is not
    HTTPS. *)
Definition bes_null_page_campaign : Dict :=
  {[ "campaign_name" := PStr "BES_Sports"; "landing_page" := PNone ]}.

Definition numeric_name_campaign : Dict :=
  {[ "campaign_name" := PInt 7;
     "landing_page" := PStr "http://disney.com" ]}.

(** A campaign record in Spanish with a landing page that is not HTTPS. *)
Definition spanish_http_record : Dict :=
  {[ "campaign_name" := PStr "PLUS_Loki_Acq_MX";
     "targeting_geo" := PStr "MX";
     "language" := PStr "SPA";
     "landing_page" := PStr "http://disney.com" ]}.

(** * Properties *)

(** Case analysis on every test of a conditional in the goal. *)
Ltac case_tests :=
  repeat match goal with
         | |- context [if ?b then _ else _] => destruct b
         end.

(** ** Strings *)

Lemma startswith_iff (s p : string) :
  startswith s p = true <-> exists b, s = p +:+ b.
Proof.
  revert s; induction p as [|a p IH]; intros s; simpl.
  - split; [intros _; exists s; reflexivity | reflexivity].
  - destruct s as [|a' s].
    + split; [discriminate | intros [b Hb]; discriminate].
    + rewrite andb_true_iff, Ascii.eqb_eq, IH. split.
      * intros [-> [b ->]]. exists b. reflexivity.
      * intros [b Hb]. injection Hb as -> ->. split; [reflexivity | exists b; reflexivity].
Qed.

(** [contains] is Python's substring test: [sub] occurs in [s] exactly when
    [s] is some text, then [sub], then some text. *)
Lemma contains_iff (sub s : string) :
  contains sub s = true <-> exists a b, s = a +:+ sub +:+ b.
Proof.
  induction s as [|x s IH]; simpl.
  - rewrite orb_false_r, startswith_iff. split.
    + intros [b Hb]. exists "", b. exact Hb.
    + intros [a [b Hab]]. destruct a; [exists b; exact Hab | discriminate].
  - rewrite orb_true_iff, startswith_iff, IH. split.
    + intros [[b Hb] | [a [b Hab]]].
      * exists "", b. exact Hb.
      * exists (String x a), b. simpl. rewrite Hab. reflexivity.
    + intros [a [b Hab]]. destruct a as [|y a]; simpl in Hab.
      * left. exists b. exact Hab.
      * right. exists a, b. injection Hab as _ Hab. exact Hab.
Qed.

Lemma count_char_app (c : ascii) (a b : string) :
  count_char c (a +:+ b) = count_char c a + count_char c b.
Proof.
  induction a as [|x a IH]; simpl; [reflexivity | rewrite IH; lia].
Qed.

Lemma count_join_pipe (f : string) (fields : list string) :
  count_char "|" (join_pipe (f :: fields)) =
  length fields + list_sum (map (count_char "|") (f :: fields)).
Proof.
  revert f; induction fields as [|g fields IH]; intros f.
  - simpl. lia.
  - change (join_pipe (f :: g :: fields))
      with (f +:+ "|" +:+ join_pipe (g :: fields)).
    rewrite !count_char_app, IH. simpl. lia.
Qed.

Lemma build_placement_taxonomy_fields (ticket campaign : Dict) :
  build_placement_taxonomy ticket campaign =
  join_pipe (taxonomy_fields ticket campaign).
Proof. reflexivity. Qed.

(** ** The router *)

Lemma new_campaign_setup_run (ticket campaign : Dict) (plat : scalar)
    (clk : Clock) (n : nat) :
  exists params1 params2 params3,
    _handle_new_campaign_setup ticket campaign plat clk n =
    Ok ([ mkPayload (get ticket "campaign_id" (PStr "CMP-UNKNOWN"))
            (PStr "CM360") "CREATE_CAMPAIGN_SHELL" params1 "Pending" None
            (clk n);
          mkPayload (get ticket "campaign_id" (PStr "CMP-UNKNOWN"))
            (PStr "CM360") "CREATE_PLACEMENT" params2 "Pending" None
            (clk (S n));
          mkPayload (get ticket "campaign_id" (PStr "CMP-UNKNOWN"))
            plat "CREATE_INSERTION_ORDER" params3 "Pending" None
            (clk (S (S n))) ], S (S (S n))) /\
    params2 !! "placement_name" =
      Some (Scalar (PStr (build_placement_taxonomy ticket campaign))).
Proof.
  do 3 eexists. split; [reflexivity |].
  apply lookup_insert_eq.
Qed.

Lemma or_else_in_str (a b s : string) :
  or_else (py_in a (PStr s)) (py_in b (PStr s)) =
  Ok (contains a s || contains b s).
Proof. unfold or_else, py_in; simpl. destruct (contains a s); reflexivity. Qed.

Lemma get_some {V} (d : gmap string V) (k : string) (dflt v : V) :
  d !! k = Some v -> get d k dflt = v.
Proof. unfold get. intros ->. reflexivity. Qed.

Lemma get_none {V} (d : gmap string V) (k : string) (dflt : V) :
  d !! k = None -> get d k dflt = dflt.
Proof. unfold get. intros ->. reflexivity. Qed.

(** The router on a ticket whose request type is the string [s]: the chain
    of tests, with the handlers still to run. *)
Lemma process_ticket_str (ticket campaign : Dict) (s : string)
    (clk : Clock) (n : nat) :
  get ticket "request_type" (PStr "") = PStr s ->
  process_ticket ticket campaign clk n =
  let platform := get ticket "platform" (PStr "DV360") in
  if contains "New Campaign" s || contains "New Placements" s
  then _handle_new_campaign_setup ticket campaign platform clk n
  else if contains "Creative Rotation" s || contains "Retrafficking" s
  then _handle_creative_rotation ticket campaign platform clk n
  else if String.eqb s "Budget Change"
  then _handle_budget_change ticket campaign platform clk n
  else if String.eqb s "New Line Item"
  then _handle_new_line_item ticket campaign platform clk n
  else if String.eqb s "Targeting Update"
  then _handle_targeting_update ticket campaign platform clk n
  else if String.eqb s "Site Tagging" || String.eqb s "Kochava"
  then _handle_tag_implementation ticket campaign platform clk n
  else Ok ([], n).
Proof.
  intros Hs. unfold process_ticket. rewrite Hs, !or_else_in_str.
  cbv [mbind M_mbind lift eq_str].
  destruct (contains "New Campaign" s || contains "New Placements" s);
    [reflexivity |].
  destruct (contains "Creative Rotation" s || contains "Retrafficking" s);
    [reflexivity |].
  repeat match goal with
         | |- context [if ?b then _ else _] => destruct b; [reflexivity |]
         end.
  reflexivity.
Qed.

(** A request type that is present and is not a string makes the first
    membership test raise. *)
Lemma process_ticket_not_str (ticket campaign : Dict) (clk : Clock) (n : nat) :
  ticket_typed ticket = false ->
  process_ticket ticket campaign clk n = Raise TypeError.
Proof.
  unfold ticket_typed, str_or_absent, process_ticket, get.
  destruct (ticket !! "request_type") as [[| |]|]; intros H;
    try discriminate H; reflexivity.
Qed.

Lemma typed_request_type (ticket : Dict) :
  ticket_typed ticket = true ->
  exists s, get ticket "request_type" (PStr "") = PStr s.
Proof.
  unfold ticket_typed, str_or_absent, get.
  destruct (ticket !! "request_type") as [[| |]|]; intros H;
    try discriminate H; eexists; reflexivity.
Qed.

(** C1: for every ticket whose [request_type] is a string containing
    "New Campaign" or "New Placements", and every campaign, the router
    returns exactly three payloads, with actions CREATE_CAMPAIGN_SHELL,
    CREATE_PLACEMENT, CREATE_INSERTION_ORDER in that order; the first two are
    on platform "CM360" and the third on the ticket's [platform], which is
    "DV360" when the ticket has none. *)
Theorem route_new_campaign (clk : Clock) (ticket campaign : Dict) (s : string) :
  ticket !! "request_type" = Some (PStr s) ->
  contains "New Campaign" s = true \/ contains "New Placements" s = true ->
  exists p1 p2 p3,
    route clk ticket campaign = Ok [p1; p2; p3] /\
    action p1 = "CREATE_CAMPAIGN_SHELL" /\
    action p2 = "CREATE_PLACEMENT" /\
    action p3 = "CREATE_INSERTION_ORDER" /\
    platform p1 = PStr "CM360" /\
    platform p2 = PStr "CM360" /\
    platform p3 = match ticket !! "platform" with
                  | Some plat => plat
                  | None => PStr "DV360"
                  end.
Proof.
  intros Hreq Hsub.
  assert (Hc : contains "New Campaign" s || contains "New Placements" s = true)
    by (apply orb_true_iff; exact Hsub).
  unfold route.
  rewrite (process_ticket_str ticket campaign s) by (apply get_some; exact Hreq).
  cbv zeta. rewrite Hc.
  destruct (new_campaign_setup_run ticket campaign
              (get ticket "platform" (PStr "DV360")) clk 0)
    as (q1 & q2 & q3 & -> & _).
  do 3 eexists. split; [reflexivity |].
  repeat split.
Qed.

Lemma route_new_campaign_sample :
  exists p1 p2 p3,
    route frozen_clock sample_ticket sample_campaign = Ok [p1; p2; p3] /\
    action p1 = "CREATE_CAMPAIGN_SHELL" /\
    action p2 = "CREATE_PLACEMENT" /\
    action p3 = "CREATE_INSERTION_ORDER" /\
    platform p1 = PStr "CM360" /\
    platform p2 = PStr "CM360" /\
    platform p3 = match sample_ticket !! "platform" with
                  | Some plat => plat
                  | None => PStr "DV360"
                  end.
Proof.
  apply (route_new_campaign frozen_clock sample_ticket sample_campaign
           "New Campaign").
  - reflexivity.
  - left. reflexivity.
Defined.

Lemma process_ticket_payloads (ticket campaign : Dict) (s : string)
    (clk : Clock) (n : nat) :
  get ticket "request_type" (PStr "") = PStr s ->
  exists ps n',
    process_ticket ticket campaign clk n = Ok (ps, n') /\
    Forall (fresh_for ticket) ps /\
    payloads_typed ps = true.
Proof.
  intros Hs. rewrite (process_ticket_str ticket campaign s clk n Hs).
  cbv zeta.
  case_tests;
    (do 2 eexists; split; [reflexivity |]; split;
     [repeat constructor | vm_compute; reflexivity]).
Qed.

(** C10: every payload returned by one call of the router has status
    "Pending" and no response, and carries the ticket's [campaign_id] when
    the ticket has one and "CMP-UNKNOWN" otherwise; so all payloads of the
    call share one campaign id. *)
Theorem route_payloads_fresh (clk : Clock) (ticket campaign : Dict)
    (ps : list TraffickingPayload) :
  route clk ticket campaign = Ok ps ->
  Forall (fun p =>
            status p = "Pending" /\ response p = None /\
            campaign_id p = match ticket !! "campaign_id" with
                            | Some ref => ref
                            | None => PStr "CMP-UNKNOWN"
                            end) ps /\
  (forall p q, In p ps -> In q ps -> campaign_id p = campaign_id q).
Proof.
  unfold route. intros Hroute.
  destruct (ticket_typed ticket) eqn:Hty.
  - destruct (typed_request_type ticket Hty) as [s Hs].
    destruct (process_ticket_payloads ticket campaign s clk 0 Hs)
      as (ps' & n' & Hrun & Hfresh & _).
    rewrite Hrun in Hroute. injection Hroute as <-.
    split; [exact Hfresh |].
    intros p q Hp Hq. rewrite List.Forall_forall in Hfresh.
    destruct (Hfresh p Hp) as (_ & _ & ->).
    destruct (Hfresh q Hq) as (_ & _ & ->).
    reflexivity.
  - rewrite process_ticket_not_str in Hroute by exact Hty. discriminate Hroute.
Qed.

Lemma route_payloads_fresh_sample :
  exists ps,
    route frozen_clock sample_ticket sample_campaign = Ok ps /\
    Forall (fun p =>
              status p = "Pending" /\ response p = None /\
              campaign_id p = PStr "CMP-9999") ps /\
    (forall p q, In p ps -> In q ps -> campaign_id p = campaign_id q).
Proof.
  eexists. split; [reflexivity |].
  apply (route_payloads_fresh frozen_clock sample_ticket sample_campaign).
  reflexivity.
Defined.

(** ** The checks *)

Lemma check_landing_page_str (ps : list TraffickingPayload) (campaign : Dict)
    (url : string) :
  get campaign "landing_page" (PStr "https://disneyplus.com") = PStr url ->
  check_landing_page ps campaign =
  Ok (if startswith url "https://"
      then mkQA "Landing Page" "Pass" "Click-through URLs act recursively."
      else mkQA "Landing Page" "Fail" ("Non-HTTPS URL provided: " +:+ url)).
Proof.
  intros H. unfold check_landing_page. cbv zeta. rewrite H.
  cbv [py_startswith mbind res_mbind res_bind py_str].
  destruct (startswith url "https://"); reflexivity.
Qed.

Lemma taxonomy_loop_typed (ps : list TraffickingPayload) :
  payloads_typed ps = true ->
  exists r,
    taxonomy_loop
      (List.filter (fun p => String.eqb (action p) "CREATE_PLACEMENT") ps) =
    Ok r /\
    check r = "Taxonomy Validation".
Proof.
  induction ps as [|p ps IH]; intros Hty.
  - eexists; split; reflexivity.
  - simpl in Hty. apply andb_true_iff in Hty as [Hp Hps].
    specialize (IH Hps). unfold payload_typed in Hp.
    cbn [List.filter]. destruct (String.eqb (action p) "CREATE_PLACEMENT").
    + cbn [taxonomy_loop]. unfold get.
      destruct (payload p !! "placement_name") as [[[| |]|]|];
        try discriminate Hp; cbv [py_count mbind res_mbind res_bind];
        match goal with
        | |- context [Nat.ltb ?a ?b] =>
            destruct (Nat.ltb a b); [eexists; split; reflexivity | exact IH]
        end.
    + exact IH.
Qed.

(** The checks that read the campaign, on a campaign whose name and landing
    page are strings when it has them. *)
Section TypedCampaign.

Variable ps : list TraffickingPayload.
Variable campaign : Dict.
Hypothesis name_typed : str_or_absent campaign "campaign_name" = true.
Hypothesis url_typed : str_or_absent campaign "landing_page" = true.

Lemma or_else_in_typed (a b : string) :
  exists name,
    get campaign "campaign_name" (PStr "") = PStr name /\
    or_else (py_in a (get campaign "campaign_name" (PStr "")))
            (py_in b (get campaign "campaign_name" (PStr ""))) =
    Ok (contains a name || contains b name).
Proof.
  pose proof name_typed as H. unfold str_or_absent in H. unfold get.
  destruct (campaign !! "campaign_name") as [[| |]|];
    try discriminate H; eexists; (split; [reflexivity | apply or_else_in_str]).
Qed.

Lemma check_targeting_ok :
  exists r, check_targeting ps campaign = Ok r /\ check r = "Targeting".
Proof.
  unfold check_targeting. cbv zeta.
  destruct (negb (truthy (get campaign "targeting_geo" PNone)));
    eexists; split; reflexivity.
Qed.

Lemma check_frequency_cap_typed :
  exists r,
    check_frequency_cap ps campaign = Ok r /\ check r = "Frequency Cap".
Proof.
  unfold check_frequency_cap.
  destruct (or_else_in_typed "BES" "Sponsorship") as (name & _ & Hor).
  cbv zeta. rewrite Hor. cbv [mbind res_mbind res_bind].
  destruct (contains "BES" name || contains "Sponsorship" name);
    eexists; split; reflexivity.
Qed.

Lemma check_content_exclusions_typed :
  exists name,
    get campaign "campaign_name" (PStr "") = PStr name /\
    check_content_exclusions ps campaign =
    Ok (if contains "BES" name || contains "Sponsorship" name
        then mkQA "Content Exclusions" "Needs Review"
                  "Sponsorship requires S&P review."
        else mkQA "Content Exclusions" "Pass" "Standard exclusions applied.").
Proof.
  unfold check_content_exclusions.
  destruct (or_else_in_typed "BES" "Sponsorship") as (name & Hn & Hor).
  exists name. split; [exact Hn |].
  cbv zeta. rewrite Hor. cbv [mbind res_mbind res_bind].
  destruct (contains "BES" name || contains "Sponsorship" name); reflexivity.
Qed.

Lemma check_content_exclusions_ok :
  exists r,
    check_content_exclusions ps campaign = Ok r /\
    check r = "Content Exclusions".
Proof.
  destruct check_content_exclusions_typed as (name & _ & ->).
  eexists. split; [reflexivity |].
  destruct (contains "BES" name || contains "Sponsorship" name); reflexivity.
Qed.

Lemma check_landing_page_typed :
  exists url,
    get campaign "landing_page" (PStr "https://disneyplus.com") = PStr url /\
    check_landing_page ps campaign =
    Ok (if startswith url "https://"
        then mkQA "Landing Page" "Pass" "Click-through URLs act recursively."
        else mkQA "Landing Page" "Fail" ("Non-HTTPS URL provided: " +:+ url)).
Proof.
  assert (exists url,
            get campaign "landing_page" (PStr "https://disneyplus.com") =
            PStr url) as [url Hurl].
  { pose proof url_typed as H. unfold str_or_absent in H. unfold get.
    destruct (campaign !! "landing_page") as [[| |]|];
      try discriminate H; eexists; reflexivity. }
  exists url. split; [exact Hurl | apply check_landing_page_str; exact Hurl].
Qed.

Lemma check_landing_page_ok :
  exists r,
    check_landing_page ps campaign = Ok r /\ check r = "Landing Page".
Proof.
  destruct check_landing_page_typed as (url & _ & ->).
  eexists. split; [reflexivity |].
  destruct (startswith url "https://"); reflexivity.
Qed.

End TypedCampaign.

(** On well-typed inputs and at least one payload, all eight checks return,
    and the evaluator lists their results in declaration order. *)
Lemma run_all_checks_typed (ps : list TraffickingPayload) (campaign : Dict) :
  ps <> [] ->
  campaign_typed campaign = true ->
  payloads_typed ps = true ->
  exists r3 r4 r5 r6 r7,
    (check r3 = "Targeting" /\ check r4 = "Frequency Cap" /\
     check r5 = "Content Exclusions" /\ check r6 = "Landing Page" /\
     check r7 = "Taxonomy Validation") /\
    check_content_exclusions ps campaign = Ok r5 /\
    check_landing_page ps campaign = Ok r6 /\
    run_all_checks ps campaign =
    Ok [ mkQA "Spec Compliance" "Pass" "Creative matches spec.";
         mkQA "Tracking" "Pass" "Tracking tags configured.";
         r3; r4; r5; r6; r7;
         mkQA "Floodlight Tags" "Pass" "Conversion tags correctly assigned." ].
Proof.
  intros Hne Hc Hps. unfold campaign_typed in Hc.
  apply andb_true_iff in Hc as [Hname Hurl].
  destruct (check_targeting_ok ps campaign) as (r3 & H3 & N3).
  destruct (check_frequency_cap_typed ps campaign Hname) as (r4 & H4 & N4).
  destruct (check_content_exclusions_ok ps campaign Hname) as (r5 & H5 & N5).
  destruct (check_landing_page_ok ps campaign Hurl) as (r6 & H6 & N6).
  destruct (taxonomy_loop_typed ps Hps) as (r7 & H7 & N7).
  change (check_taxonomy ps campaign = Ok r7) in H7.
  exists r3, r4, r5, r6, r7.
  split; [repeat split; assumption |].
  do 2 (split; [assumption |]).
  destruct ps as [|p ps]; [contradiction |].
  unfold run_all_checks. rewrite H3, H4, H5, H6, H7. reflexivity.
Qed.

(** The typing of the campaign is needed: on at least one payload, a
    campaign whose name or landing page is present and is not a string makes
    the Frequency Cap or the Landing Page check raise, and the evaluator with
    it. *)
Lemma run_all_checks_ill_typed (ps : list TraffickingPayload)
    (campaign : Dict) :
  ps <> [] ->
  campaign_typed campaign = false ->
  exists e, run_all_checks ps campaign = Raise e.
Proof.
  intros Hne Hc. destruct ps as [|p ps]; [contradiction |].
  unfold run_all_checks.
  destruct (check_targeting_ok (p :: ps) campaign) as (r3 & H3 & _).
  rewrite H3.
  destruct (str_or_absent campaign "campaign_name") eqn:Hname.
  - destruct (check_frequency_cap_typed (p :: ps) campaign Hname)
      as (r4 & H4 & _).
    destruct (check_content_exclusions_ok (p :: ps) campaign Hname)
      as (r5 & H5 & _).
    rewrite H4, H5.
    unfold campaign_typed in Hc. rewrite Hname in Hc. cbn [andb] in Hc.
    exists AttributeError.
    assert (H6 : check_landing_page (p :: ps) campaign = Raise AttributeError).
    { unfold check_landing_page, get. unfold str_or_absent in Hc.
      destruct (campaign !! "landing_page") as [[| |]|];
        try discriminate Hc; reflexivity. }
    rewrite H6. reflexivity.
  - exists TypeError.
    assert (H4 : check_frequency_cap (p :: ps) campaign = Raise TypeError).
    { unfold check_frequency_cap, get. unfold str_or_absent in Hname.
      destruct (campaign !! "campaign_name") as [[| |]|];
        try discriminate Hname; reflexivity. }
    rewrite H4. reflexivity.
Qed.

(** C3, as the code has it: for every campaign, the evaluator applied to no
    payloads returns exactly one result, the check "Spec Compliance" with
    result "Fail" and details containing "No payloads to QA."; applied to a
    non-empty sequence of payloads it returns exactly eight results, in the
    declaration order of the eight checks, "Spec Compliance" first, provided
    the campaign's name and landing page are strings when it has them and
    every placement payload names its placement by a string when it names
    it. *)
Theorem run_all_checks_shape (ps : list TraffickingPayload) (campaign : Dict) :
  (exists r,
     run_all_checks [] campaign = Ok [r] /\
     check r = "Spec Compliance" /\ result r = "Fail" /\
     contains "No payloads to QA." (details r) = true) /\
  (ps <> [] ->
   campaign_typed campaign = true ->
   payloads_typed ps = true ->
   exists rs,
     run_all_checks ps campaign = Ok rs /\
     length rs = 8 /\
     map check rs = check_names).
Proof.
  split.
  - eexists. split; [reflexivity |]. repeat split.
  - intros Hne Hc Hps.
    destruct (run_all_checks_typed ps campaign Hne Hc Hps)
      as (r3 & r4 & r5 & r6 & r7 & (N3 & N4 & N5 & N6 & N7) & _ & _ & Hrun).
    eexists. split; [exact Hrun |]. split; [reflexivity |].
    cbn [map check]. rewrite N3, N4, N5, N6, N7. reflexivity.
Qed.

(** C3, as stated, fails: on one payload and a campaign whose landing page
    is [None], the evaluator raises AttributeError and returns no list of
    eight results. *)
Lemma run_all_checks_shape_fails :
  run_all_checks [sample_payload] null_page_campaign = Raise AttributeError /\
  ~ (exists rs,
       run_all_checks [sample_payload] null_page_campaign = Ok rs /\
       length rs = 8).
Proof.
  assert (H : run_all_checks [sample_payload] null_page_campaign =
              Raise AttributeError) by reflexivity.
  split; [exact H |].
  intros (rs & Hrs & _). rewrite H in Hrs. discriminate Hrs.
Qed.

Lemma run_all_checks_shape_sample :
  exists rs,
    run_all_checks [sample_payload] sample_campaign = Ok rs /\
    length rs = 8 /\
    map check rs = check_names.
Proof.
  apply (run_all_checks_shape [sample_payload] sample_campaign);
    [discriminate | reflexivity | reflexivity].
Defined.

(** C8, as the code has it: for every non-empty payload sequence and every
    campaign, provided the campaign's name and landing page are strings when
    it has them and every placement payload names its placement by a string
    when it names it, the fifth result of the evaluator is the Content
    Exclusions check; its result is "Needs Review" if and only if the
    campaign name contains "BES" or "Sponsorship", its details then contain
    "S&P review", and its result is "Pass" otherwise.  The name of a campaign
    that has none is the empty string. *)
Theorem content_exclusions_verdict (ps : list TraffickingPayload)
    (campaign : Dict) :
  ps <> [] ->
  campaign_typed campaign = true ->
  payloads_typed ps = true ->
  exists rs r name,
    run_all_checks ps campaign = Ok rs /\
    nth_error rs 4 = Some r /\
    check r = "Content Exclusions" /\
    get campaign "campaign_name" (PStr "") = PStr name /\
    (result r = "Needs Review" <->
     contains "BES" name = true \/ contains "Sponsorship" name = true) /\
    (result r = "Needs Review" -> contains "S&P review" (details r) = true) /\
    (result r <> "Needs Review" -> result r = "Pass").
Proof.
  intros Hne Hc Hps.
  destruct (run_all_checks_typed ps campaign Hne Hc Hps)
    as (r3 & r4 & r5 & r6 & r7 & (_ & _ & N5 & _ & _) & H5 & _ & Hrun).
  destruct (andb_prop _ _ Hc) as [Hname _].
  destruct (check_content_exclusions_typed ps campaign Hname)
    as (name & Hn & H5').
  eexists. exists r5, name.
  split; [exact Hrun |]. split; [reflexivity |]. split; [exact N5 |].
  split; [exact Hn |].
  rewrite <- orb_true_iff.
  assert (Hr5 : r5 = if contains "BES" name || contains "Sponsorship" name
                     then mkQA "Content Exclusions" "Needs Review"
                            "Sponsorship requires S&P review."
                     else mkQA "Content Exclusions" "Pass"
                            "Standard exclusions applied.") by congruence.
  rewrite Hr5.
  destruct (contains "BES" name || contains "Sponsorship" name); cbn [result details].
  - repeat split; intros; try reflexivity. contradiction.
  - repeat split; intros; try discriminate; reflexivity.
Qed.

(** C8, as stated, fails: on one payload and a campaign named "BES_Sports"
    whose landing page is [None], the evaluator raises AttributeError, so
    there is no fifth result, although the name contains "BES". *)
Lemma content_exclusions_no_result :
  contains "BES" "BES_Sports" = true /\
  run_all_checks [sample_payload] bes_null_page_campaign =
    Raise AttributeError /\
  ~ (exists rs r,
       run_all_checks [sample_payload] bes_null_page_campaign = Ok rs /\
       nth_error rs 4 = Some r /\
       result r = "Needs Review").
Proof.
  assert (H : run_all_checks [sample_payload] bes_null_page_campaign =
              Raise AttributeError) by reflexivity.
  split; [reflexivity |]. split; [exact H |].
  intros (rs & r & Hrs & _). rewrite H in Hrs. discriminate Hrs.
Qed.

Lemma content_exclusions_verdict_sample :
  exists rs r name,
    run_all_checks [sample_payload] sponsorship_campaign = Ok rs /\
    nth_error rs 4 = Some r /\
    check r = "Content Exclusions" /\
    get sponsorship_campaign "campaign_name" (PStr "") = PStr name /\
    (result r = "Needs Review" <->
     contains "BES" name = true \/ contains "Sponsorship" name = true) /\
    (result r = "Needs Review" -> contains "S&P review" (details r) = true) /\
    (result r <> "Needs Review" -> result r = "Pass").
Proof.
  apply (content_exclusions_verdict [sample_payload] sponsorship_campaign);
    [discriminate | reflexivity | reflexivity].
Defined.

(** C9, as the code has it: for every non-empty payload sequence and every
    campaign, provided the campaign's name and landing page are strings when
    it has them and every placement payload names its placement by a string
    when it names it, the sixth result of the evaluator is the Landing Page
    check; its result is "Fail" if and only if the campaign has a
    [landing_page] that does not start with "https://", its details then
    contain "Non-HTTPS URL"; otherwise the result is "Pass", in particular
    when the campaign has no [landing_page] and "https://disneyplus.com" is
    used. *)
Theorem landing_page_verdict (ps : list TraffickingPayload) (campaign : Dict) :
  ps <> [] ->
  campaign_typed campaign = true ->
  payloads_typed ps = true ->
  exists rs r,
    run_all_checks ps campaign = Ok rs /\
    nth_error rs 5 = Some r /\
    check r = "Landing Page" /\
    (result r = "Fail" <->
     exists url, campaign !! "landing_page" = Some (PStr url) /\
                 startswith url "https://" = false) /\
    (result r = "Fail" -> contains "Non-HTTPS URL" (details r) = true) /\
    (result r <> "Fail" -> result r = "Pass") /\
    (campaign !! "landing_page" = None ->
     get campaign "landing_page" (PStr "https://disneyplus.com") =
       PStr "https://disneyplus.com" /\
     result r = "Pass").
Proof.
  intros Hne Hc Hps.
  destruct (run_all_checks_typed ps campaign Hne Hc Hps)
    as (r3 & r4 & r5 & r6 & r7 & (_ & _ & _ & N6 & _) & _ & H6 & Hrun).
  destruct (andb_prop _ _ Hc) as [_ Hurl].
  destruct (check_landing_page_typed ps campaign Hurl) as (url & Hu & H6').
  eexists. exists r6.
  split; [exact Hrun |]. split; [reflexivity |]. split; [exact N6 |].
  assert (Hr6 : r6 = if startswith url "https://"
                     then mkQA "Landing Page" "Pass"
                            "Click-through URLs act recursively."
                     else mkQA "Landing Page" "Fail"
                            ("Non-HTTPS URL provided: " +:+ url))
    by congruence.
  rewrite Hr6. clear Hr6 H6 H6' Hrun.
  unfold str_or_absent in Hurl. unfold get in *.
  destruct (campaign !! "landing_page") as [[| u |]|];
    try discriminate Hurl.
  - injection Hu as <-.
    destruct (startswith u "https://") eqn:Hs; cbn [result details].
    + repeat split; intros; try discriminate; try reflexivity.
      destruct H as (url & Heq & Hno). congruence.
    + repeat split; intros; try discriminate; try reflexivity;
        try contradiction.
      exists u. split; [reflexivity | exact Hs].
  - injection Hu as <-.
    change (startswith "https://disneyplus.com" "https://") with true.
    cbn [result details].
    repeat split; intros; try discriminate; try reflexivity.
    destruct H as (url & Heq & _). discriminate Heq.
Qed.

(** C9, as stated, fails: on one payload and a campaign whose landing page
    "http://disney.com" does not start with "https://" and whose name is the
    number 7, the evaluator raises TypeError, so there is no sixth result
    "Fail". *)
Lemma landing_page_no_result :
  numeric_name_campaign !! "landing_page" = Some (PStr "http://disney.com") /\
  startswith "http://disney.com" "https://" = false /\
  run_all_checks [sample_payload] numeric_name_campaign = Raise TypeError /\
  ~ (exists rs r,
       run_all_checks [sample_payload] numeric_name_campaign = Ok rs /\
       nth_error rs 5 = Some r /\
       result r = "Fail").
Proof.
  assert (H : run_all_checks [sample_payload] numeric_name_campaign =
              Raise TypeError) by reflexivity.
  split; [reflexivity |]. split; [reflexivity |]. split; [exact H |].
  intros (rs & r & Hrs & _). rewrite H in Hrs. discriminate Hrs.
Qed.

Lemma landing_page_verdict_sample :
  exists rs r,
    run_all_checks [sample_payload] http_campaign = Ok rs /\
    nth_error rs 5 = Some r /\
    check r = "Landing Page" /\
    (result r = "Fail" <->
     exists url, http_campaign !! "landing_page" = Some (PStr url) /\
                 startswith url "https://" = false) /\
    (result r = "Fail" -> contains "Non-HTTPS URL" (details r) = true) /\
    (result r <> "Fail" -> result r = "Pass") /\
    (http_campaign !! "landing_page" = None ->
     get http_campaign "landing_page" (PStr "https://disneyplus.com") =
       PStr "https://disneyplus.com" /\
     result r = "Pass").
Proof.
  apply (landing_page_verdict [sample_payload] http_campaign);
    [discriminate | reflexivity | reflexivity].
Defined.

Lemma run_all_checks_ok (ps : list TraffickingPayload) (campaign : Dict) :
  campaign_typed campaign = true ->
  payloads_typed ps = true ->
  exists rs, run_all_checks ps campaign = Ok rs.
Proof.
  intros Hc Hps. destruct ps as [|p ps].
  - eexists. reflexivity.
  - destruct (run_all_checks_typed (p :: ps) campaign) as
      (r3 & r4 & r5 & r6 & r7 & _ & _ & _ & Hrun);
      [discriminate | exact Hc | exact Hps |].
    eexists. exact Hrun.
Qed.

Lemma process_ticket_unrecognized (ticket campaign : Dict) (s : string)
    (clk : Clock) (n : nat) :
  get ticket "request_type" (PStr "") = PStr s ->
  unrecognized s = true ->
  process_ticket ticket campaign clk n = Ok ([], n).
Proof.
  intros Hs Hun. rewrite (process_ticket_str ticket campaign s clk n Hs).
  unfold unrecognized in Hun. apply negb_true_iff in Hun.
  repeat (apply orb_false_iff in Hun as [Hun ?]).
  cbv zeta.
  repeat match goal with
         | H : _ = false |- _ => rewrite H; clear H
         end.
  reflexivity.
Qed.

(** What holds of the totality of the two engines: on well-typed input the
    router and the evaluator return a result and raise nothing: the router
    on every ticket whose [request_type], when present, is a string; the evaluator on every campaign whose name and
    landing page, when present, are strings and on payloads whose placement
    names are strings, in particular on the payloads the router returns.  A
    campaign without [landing_page] passes the Landing Page check on the
    default "https://disneyplus.com", and a request type that no branch
    recognises yields the empty payload list. *)
Theorem core_never_raises (clk : Clock) (ticket campaign : Dict)
    (ps0 : list TraffickingPayload) :
  ticket_typed ticket = true ->
  campaign_typed campaign = true ->
  payloads_typed ps0 = true ->
  (exists ps rs,
     route clk ticket campaign = Ok ps /\
     run_all_checks ps campaign = Ok rs) /\
  (exists rs, run_all_checks ps0 campaign = Ok rs) /\
  (campaign !! "landing_page" = None ->
   get campaign "landing_page" (PStr "https://disneyplus.com") =
     PStr "https://disneyplus.com" /\
   check_landing_page ps0 campaign =
     Ok (mkQA "Landing Page" "Pass" "Click-through URLs act recursively.")) /\
  (forall s,
     get ticket "request_type" (PStr "") = PStr s ->
     unrecognized s = true ->
     route clk ticket campaign = Ok []).
Proof.
  intros Ht Hc Hps0.
  destruct (typed_request_type ticket Ht) as [s Hs].
  destruct (process_ticket_payloads ticket campaign s clk 0 Hs)
    as (ps & n' & Hrun & _ & Hps).
  repeat split.
  - destruct (run_all_checks_ok ps campaign Hc Hps) as [rs Hrs].
    exists ps, rs. unfold route. rewrite Hrun. split; [reflexivity | exact Hrs].
  - exact (run_all_checks_ok ps0 campaign Hc Hps0).
  - apply get_none. assumption.
  - rewrite (check_landing_page_str ps0 campaign "https://disneyplus.com");
      [reflexivity | apply get_none; assumption].
  - intros s' Hs' Hun. unfold route.
    rewrite (process_ticket_unrecognized ticket campaign s' clk 0 Hs' Hun).
    reflexivity.
Qed.

Lemma core_never_raises_sample :
  (exists ps rs,
     route frozen_clock sample_ticket sample_campaign = Ok ps /\
     run_all_checks ps sample_campaign = Ok rs) /\
  (exists rs, run_all_checks [sample_payload] sample_campaign = Ok rs) /\
  (sample_campaign !! "landing_page" = None ->
   get sample_campaign "landing_page" (PStr "https://disneyplus.com") =
     PStr "https://disneyplus.com" /\
   check_landing_page [sample_payload] sample_campaign =
     Ok (mkQA "Landing Page" "Pass" "Click-through URLs act recursively.")) /\
  (forall s,
     get sample_ticket "request_type" (PStr "") = PStr s ->
     unrecognized s = true ->
     route frozen_clock sample_ticket sample_campaign = Ok []).
Proof.
  apply (core_never_raises frozen_clock sample_ticket sample_campaign
           [sample_payload]); reflexivity.
Defined.

(** C7, where the code departs from it: the ticket that [run_pipeline]
    builds for a record without request type holds [None] under
    "request_type", where the router expects the key to be missing; on that
    ticket the router raises TypeError, for every campaign and every clock,
    and returns no payload list. *)
Theorem route_raises_on_blank_record (clk : Clock) (campaign : Dict) :
  ticket_typed blank_record_ticket = false /\
  route clk blank_record_ticket campaign = Raise TypeError.
Proof.
  split; [reflexivity |]. unfold route.
  rewrite process_ticket_not_str by reflexivity. reflexivity.
Qed.

(** ** Determinism *)

(** Two runs of the router on the same ticket and campaign, whatever the
    clocks show, raise the same exception or return payloads that differ at
    most in [created_at]. *)
Lemma process_ticket_same (ticket campaign : Dict) (clk1 clk2 : Clock)
    (n1 n2 : nat) :
  match process_ticket ticket campaign clk1 n1,
        process_ticket ticket campaign clk2 n2 with
  | Ok (ps1, _), Ok (ps2, _) => Forall2 same_but_created_at ps1 ps2
  | Raise e1, Raise e2 => e1 = e2
  | _, _ => False
  end.
Proof.
  destruct (ticket_typed ticket) eqn:Hty.
  - destruct (typed_request_type ticket Hty) as [s Hs].
    rewrite !(process_ticket_str ticket campaign s _ _ Hs). cbv zeta.
    case_tests;
      repeat constructor.
  - rewrite !process_ticket_not_str by exact Hty. reflexivity.
Qed.

Lemma check_taxonomy_same (ps1 ps2 : list TraffickingPayload)
    (campaign : Dict) :
  Forall2 same_but_created_at ps1 ps2 ->
  check_taxonomy ps1 campaign = check_taxonomy ps2 campaign.
Proof.
  unfold check_taxonomy.
  induction 1 as [|p q ps1 ps2 (_ & _ & Hact & Hpay & _ & _) _ IH];
    [reflexivity |].
  cbn [List.filter]. rewrite Hact.
  destruct (String.eqb (action q) "CREATE_PLACEMENT"); [| exact IH].
  cbn [taxonomy_loop]. rewrite Hpay, IH. reflexivity.
Qed.

Lemma run_all_checks_same (ps1 ps2 : list TraffickingPayload)
    (campaign : Dict) :
  Forall2 same_but_created_at ps1 ps2 ->
  run_all_checks ps1 campaign = run_all_checks ps2 campaign.
Proof.
  intros H. pose proof (check_taxonomy_same ps1 ps2 campaign H) as Htax.
  destruct H as [|p q ps1 ps2 _ _]; [reflexivity |].
  unfold run_all_checks. rewrite Htax. reflexivity.
Qed.

(** C2, as the code has it: two calls of the router on the same ticket and
    campaign raise the same exception or return payload sequences that agree
    in every field except [created_at], the time of construction read from
    the clock; the evaluator is a function of its payloads and campaign that
    does not look at [created_at], so on the payloads of either call it
    returns the same results. *)
Theorem route_same_but_created_at (clk1 clk2 : Clock)
    (ticket campaign : Dict) :
  match route clk1 ticket campaign, route clk2 ticket campaign with
  | Ok ps1, Ok ps2 =>
      Forall2 same_but_created_at ps1 ps2 /\
      run_all_checks ps1 campaign = run_all_checks ps2 campaign
  | Raise e1, Raise e2 => e1 = e2
  | _, _ => False
  end /\
  match route_twice clk1 ticket campaign with
  | Ok (ps1, ps2) =>
      Forall2 same_but_created_at ps1 ps2 /\
      run_all_checks ps1 campaign = run_all_checks ps2 campaign
  | Raise e => route clk1 ticket campaign = Raise e
  end.
Proof.
  split.
  - unfold route.
    pose proof (process_ticket_same ticket campaign clk1 clk2 0 0) as H.
    destruct (process_ticket ticket campaign clk1 0) as [[ps1 m1]|e1];
      destruct (process_ticket ticket campaign clk2 0) as [[ps2 m2]|e2];
      cbn; try exact H.
    split; [exact H | apply run_all_checks_same; exact H].
  - unfold route_twice. cbv [mbind M_mbind mret M_mret].
    unfold route.
    destruct (process_ticket ticket campaign clk1 0) as [[ps1 m1]|e1] eqn:H1;
      [| reflexivity].
    pose proof (process_ticket_same ticket campaign clk1 clk1 0 m1) as H.
    rewrite H1 in H.
    destruct (process_ticket ticket campaign clk1 m1) as [[ps2 m2]|e2];
      cbn; [| contradiction].
    split; [exact H | apply run_all_checks_same; exact H].
Qed.

(** C2, as stated, fails: under a clock that advances between readings, two
    calls in a row on the same ticket and campaign return payloads that are
    not equal. *)
Lemma route_twice_differs :
  exists first second,
    route_twice ticking_clock budget_ticket ∅ = Ok (first, second) /\
    map created_at first = ["2026-03-01T09:00:00.000000"] /\
    map created_at second = ["2026-03-01T09:00:00.000125"] /\
    first <> second.
Proof.
  do 2 eexists. split; [reflexivity |]. split; [reflexivity |].
  split; [reflexivity |].
  intros H. apply (f_equal (map created_at)) in H. discriminate H.
Qed.

(** ** The taxonomy string *)

Lemma sum_pipes_zero (fields : list string) :
  list_sum (map (count_char "|") fields) = 0 <->
  List.Forall (fun f => count_char "|" f = 0) fields.
Proof.
  induction fields as [|f fields IH]; cbn [map list_sum fold_right].
  - split; [constructor | reflexivity].
  - split.
    + intros H. constructor; [lia |]. apply IH. unfold list_sum. lia.
    + intros H. inversion H as [|? ? Hf Hrest]; subst.
      apply IH in Hrest. unfold list_sum in Hrest. lia.
Qed.

Lemma taxonomy_pipes (ticket campaign : Dict) :
  count_char "|" (build_placement_taxonomy ticket campaign) =
  6 + list_sum (map (count_char "|") (taxonomy_fields ticket campaign)).
Proof.
  rewrite build_placement_taxonomy_fields. unfold taxonomy_fields.
  rewrite count_join_pipe. reflexivity.
Qed.

(** C4, as the code has it: for every ticket and campaign the taxonomy
    string contains the six delimiting pipes and, besides, the pipes of its
    seven field values; so it contains at least 6 pipe characters, and
    exactly 6 if and only if no field value contains a pipe. *)
Theorem taxonomy_pipe_count (ticket campaign : Dict) :
  count_char "|" (build_placement_taxonomy ticket campaign) =
    6 + list_sum (map (count_char "|") (taxonomy_fields ticket campaign)) /\
  6 <= count_char "|" (build_placement_taxonomy ticket campaign) /\
  (count_char "|" (build_placement_taxonomy ticket campaign) = 6 <->
   List.Forall (fun f => count_char "|" f = 0)
     (taxonomy_fields ticket campaign)).
Proof.
  pose proof (taxonomy_pipes ticket campaign) as H.
  split; [exact H |]. split; [lia |].
  rewrite <- sum_pipes_zero. lia.
Qed.

(** C4, as stated, fails: a campaign named "A|B" gives a taxonomy string with
    7 pipe characters. *)
Lemma taxonomy_seven_pipes :
  build_placement_taxonomy ∅ piped_campaign =
    "A|B|UNKNOWN_GEO|ENG|UNKNOWN_BRAND|UNKNOWN_TITLE|Acq|ProgDisplay" /\
  count_char "|" (build_placement_taxonomy ∅ piped_campaign) = 7 /\
  count_char "|" (build_placement_taxonomy ∅ piped_campaign) <> 6.
Proof.
  split; [reflexivity |]. split; [reflexivity |].
  vm_compute. discriminate.
Qed.

(** The Taxonomy Validation check asks for at least six pipes, so it passes
    every placement that the router names by the taxonomy string. *)
Lemma check_taxonomy_passes_route (clk : Clock) (ticket campaign : Dict)
    (ps : list TraffickingPayload) :
  route clk ticket campaign = Ok ps ->
  check_taxonomy ps campaign =
  Ok (mkQA "Taxonomy Validation" "Pass" "Taxonomy valid.").
Proof.
  unfold route. intros Hroute.
  destruct (ticket_typed ticket) eqn:Hty;
    [| rewrite process_ticket_not_str in Hroute by exact Hty;
       discriminate Hroute].
  destruct (typed_request_type ticket Hty) as [s Hs].
  rewrite (process_ticket_str ticket campaign s clk 0 Hs) in Hroute.
  cbv zeta in Hroute.
  assert (Hsix : 6 <= count_char "|"
                        (build_placement_taxonomy ticket campaign))
    by (rewrite taxonomy_pipes; lia).
  apply Nat.ltb_ge in Hsix.
  repeat match type of Hroute with
         | context [if ?b then _ else _] => destruct b
         end;
    injection Hroute as <-; try reflexivity.
  unfold check_taxonomy.
  change (taxonomy_loop _) with
    (if Nat.ltb (count_char "|" (build_placement_taxonomy ticket campaign)) 6
     then Ok (mkQA "Taxonomy Validation" "Fail"
                "Placement name does not follow pipe-delimited convention.")
     else Ok (mkQA "Taxonomy Validation" "Pass" "Taxonomy valid.")).
  rewrite Hsix. reflexivity.
Qed.

(** C5, as the code has it: the taxonomy string is the pipe-delimited
    concatenation of exactly seven fields, in the order campaign_name,
    targeting_geo, language, brand_code, title_name, campaign_objective,
    channel_mapped; a field missing from the campaign falls back to
    "UNKNOWN_CAMP", to the ticket's [targeting_geo] and then "UNKNOWN_GEO",
    to "ENG", to the ticket's [brand] and then "UNKNOWN_BRAND", to
    "UNKNOWN_TITLE", "Acq" and "ProgDisplay"; it is the string of the
    specification whenever the campaign has a brand code or the ticket has no
    brand; and for the campaign of the example it equals
    "DBUN_Bundle_Acq_US_ProgDisplay|US|ENG|DBUN|Bundle|Acq|ProgDisplay". *)
Theorem taxonomy_string (ticket campaign : Dict) :
  build_placement_taxonomy ticket campaign =
    join_pipe
      (py_str <$>
         [ default (PStr "UNKNOWN_CAMP") (campaign !! "campaign_name");
           default (default (PStr "UNKNOWN_GEO") (ticket !! "targeting_geo"))
             (campaign !! "targeting_geo");
           default (PStr "ENG") (campaign !! "language");
           default (default (PStr "UNKNOWN_BRAND") (ticket !! "brand"))
             (campaign !! "brand_code");
           default (PStr "UNKNOWN_TITLE") (campaign !! "title_name");
           default (PStr "Acq") (campaign !! "campaign_objective");
           default (PStr "ProgDisplay") (campaign !! "channel_mapped") ]) /\
  (is_Some (campaign !! "brand_code") \/ ticket !! "brand" = None ->
   build_placement_taxonomy ticket campaign = spec_taxonomy ticket campaign) /\
  build_placement_taxonomy ticket taxonomy_campaign =
    "DBUN_Bundle_Acq_US_ProgDisplay|US|ENG|DBUN|Bundle|Acq|ProgDisplay".
Proof.
  split; [| split].
  - unfold build_placement_taxonomy, get.
    repeat match goal with
           | |- context [?d !! ?k] => destruct (d !! k)
           end; reflexivity.
  - unfold build_placement_taxonomy, spec_taxonomy, get.
    intros [[v Hv] | Hnone].
    + rewrite Hv. reflexivity.
    + rewrite Hnone. reflexivity.
  - reflexivity.
Qed.

Lemma taxonomy_string_sample :
  build_placement_taxonomy ∅ sample_campaign =
    spec_taxonomy ∅ sample_campaign.
Proof.
  apply (taxonomy_string ∅ sample_campaign). right. reflexivity.
Defined.

(** C5, as stated, fails: with no brand code on the campaign, the brand
    field is the ticket's brand and not "UNKNOWN_BRAND". *)
Lemma taxonomy_prefers_ticket_brand :
  build_placement_taxonomy branded_ticket ∅ =
    "UNKNOWN_CAMP|UNKNOWN_GEO|ENG|DIS|UNKNOWN_TITLE|Acq|ProgDisplay" /\
  spec_taxonomy branded_ticket ∅ =
    "UNKNOWN_CAMP|UNKNOWN_GEO|ENG|UNKNOWN_BRAND|UNKNOWN_TITLE|Acq|ProgDisplay" /\
  build_placement_taxonomy branded_ticket ∅ <> spec_taxonomy branded_ticket ∅.
Proof.
  split; [reflexivity |]. split; [reflexivity |].
  vm_compute. discriminate.
Qed.

(** ** The automation tier *)

(** C6: [get_eve_version] is the lookup in the fixed table: CM360 with
    ProgAudio, ProgCTV or ProgNative gives "V2.2", CM360 with YouTube "V2.1",
    Yahoo DSP "V2", Amazon DSP "V3", DV360 "V1" and every other pair "V1";
    the five sample pairs have the tiers listed. *)
Theorem get_eve_version_table (platform channel : string) :
  get_eve_version platform channel =
    classify_automation_tier platform channel /\
  get_eve_version "DV360" "ProgDisplay" = "V1" /\
  get_eve_version "Yahoo DSP" "ProgDisplay" = "V2" /\
  get_eve_version "CM360" "YouTube" = "V2.1" /\
  get_eve_version "CM360" "ProgAudio" = "V2.2" /\
  get_eve_version "Amazon DSP" "ProgCTV" = "V3".
Proof.
  split; [| repeat split].
  unfold get_eve_version, classify_automation_tier, tier_table.
  cbn [find row_matches existsb].
  destruct (String.eqb_spec platform "CM360") as [->|_].
  - change (String.eqb "CM360" "Yahoo DSP") with false.
    change (String.eqb "CM360" "Amazon DSP") with false.
    change (String.eqb "CM360" "DV360") with false.
    cbn [andb orb].
    destruct (String.eqb channel "ProgAudio"),
             (String.eqb channel "ProgCTV"),
             (String.eqb channel "ProgNative"),
             (String.eqb channel "YouTube"); reflexivity.
  - cbn [andb].
    destruct (String.eqb platform "Yahoo DSP"),
             (String.eqb platform "Amazon DSP"),
             (String.eqb platform "DV360"); reflexivity.
Qed.

(** * Further properties of the router *)

(** The router on a ticket with a string request type, seen from a returned
    result. *)
Ltac route_inv Hroute :=
  match type of Hroute with
  | route ?clk ?ticket ?campaign = Ok _ =>
      let Hty := fresh "Hty" in
      let s := fresh "s" in
      let Hs := fresh "Hs" in
      unfold route in Hroute;
      destruct (ticket_typed ticket) eqn:Hty;
        [ destruct (typed_request_type ticket Hty) as [s Hs];
          rewrite (process_ticket_str ticket campaign s clk 0 Hs) in Hroute;
          cbv zeta in Hroute;
          repeat match type of Hroute with
                 | context [if ?b then _ else _] => destruct b
                 end;
          injection Hroute as <-
        | rewrite process_ticket_not_str in Hroute by exact Hty;
          discriminate Hroute ]
  end.

Lemma route_str (clk : Clock) (ticket campaign : Dict) (s : string) :
  ticket !! "request_type" = Some (PStr s) ->
  route clk ticket campaign =
  fst <$> (let platform := get ticket "platform" (PStr "DV360") in
           if is_setup s
           then _handle_new_campaign_setup ticket campaign platform clk 0
           else if is_rotation s
           then _handle_creative_rotation ticket campaign platform clk 0
           else if String.eqb s "Budget Change"
           then _handle_budget_change ticket campaign platform clk 0
           else if String.eqb s "New Line Item"
           then _handle_new_line_item ticket campaign platform clk 0
           else if String.eqb s "Targeting Update"
           then _handle_targeting_update ticket campaign platform clk 0
           else if String.eqb s "Site Tagging" || String.eqb s "Kochava"
           then _handle_tag_implementation ticket campaign platform clk 0
           else Ok ([], 0)).
Proof.
  intros Hreq. unfold route.
  rewrite (process_ticket_str ticket campaign s clk 0)
    by (apply get_some; exact Hreq).
  reflexivity.
Qed.

(** X1: for a ticket whose request type is a string that contains "Creative
    Rotation" or "Retrafficking" and neither "New Campaign" nor "New
    Placements", the router returns exactly one payload: ROTATE_CREATIVES on
    platform "CM360" whatever the ticket's platform, whose [placements] is
    the one-element list of the taxonomy string and whose [new_assets] is
    the fixed list of two assets. *)
Theorem route_creative_rotation (clk : Clock) (ticket campaign : Dict)
    (s : string) :
  ticket !! "request_type" = Some (PStr s) ->
  is_setup s = false ->
  is_rotation s = true ->
  exists p,
    route clk ticket campaign = Ok [p] /\
    action p = "ROTATE_CREATIVES" /\
    platform p = PStr "CM360" /\
    payload p !! "placements" =
      Some (PList [Scalar (PStr (build_placement_taxonomy ticket campaign))]) /\
    payload p !! "new_assets" =
      Some (PList [Scalar (PStr "asset_1.mp4"); Scalar (PStr "asset_2.jpg")]) /\
    size (payload p) = 2.
Proof.
  intros Hreq Hset Hrot.
  rewrite (route_str clk ticket campaign s Hreq). cbv zeta.
  rewrite Hset, Hrot.
  eexists. split; [reflexivity |].
  repeat split; reflexivity.
Qed.

Lemma route_creative_rotation_sample :
  exists p,
    route frozen_clock rotation_ticket rotation_campaign = Ok [p] /\
    action p = "ROTATE_CREATIVES" /\
    platform p = PStr "CM360" /\
    payload p !! "placements" =
      Some (PList [Scalar (PStr (build_placement_taxonomy rotation_ticket
                                   rotation_campaign))]) /\
    payload p !! "new_assets" =
      Some (PList [Scalar (PStr "asset_1.mp4"); Scalar (PStr "asset_2.jpg")]) /\
    size (payload p) = 2.
Proof.
  apply (route_creative_rotation frozen_clock rotation_ticket
           rotation_campaign "Creative Rotation"); reflexivity.
Defined.

(** X2: for a ticket whose request type is exactly "Budget Change", the
    router returns exactly one payload: UPDATE_BUDGET on the ticket's
    platform ("DV360" when the ticket has none), whose only parameter
    [new_budget] is the campaign's [budget_usd], and 0 when the campaign has
    none. *)
Theorem route_budget_change (clk : Clock) (ticket campaign : Dict) :
  ticket !! "request_type" = Some (PStr "Budget Change") ->
  exists p,
    route clk ticket campaign = Ok [p] /\
    action p = "UPDATE_BUDGET" /\
    platform p = default (PStr "DV360") (ticket !! "platform") /\
    payload p =
      {[ "new_budget" := Scalar (default (PInt 0) (campaign !! "budget_usd")) ]}.
Proof.
  intros Hreq. rewrite (route_str clk ticket campaign _ Hreq).
  eexists. split; [reflexivity |]. cbn [action platform payload].
  repeat split.
Qed.

Lemma route_budget_change_sample :
  exists p,
    route frozen_clock budget_ticket sample_campaign = Ok [p] /\
    action p = "UPDATE_BUDGET" /\
    platform p = default (PStr "DV360") (budget_ticket !! "platform") /\
    payload p =
      {[ "new_budget" :=
           Scalar (default (PInt 0) (sample_campaign !! "budget_usd")) ]}.
Proof.
  apply (route_budget_change frozen_clock budget_ticket sample_campaign).
  reflexivity.
Defined.

(** X3: for a ticket whose request type is exactly "New Line Item", the
    router returns exactly one payload: CREATE_LINE_ITEM on the ticket's
    platform ("DV360" when the ticket has none), whose only parameter
    [targeting] is the campaign's [audience_detailed], and [None] when the
    campaign has none. *)
Theorem route_new_line_item (clk : Clock) (ticket campaign : Dict) :
  ticket !! "request_type" = Some (PStr "New Line Item") ->
  exists p,
    route clk ticket campaign = Ok [p] /\
    action p = "CREATE_LINE_ITEM" /\
    platform p = default (PStr "DV360") (ticket !! "platform") /\
    payload p =
      {[ "targeting" :=
           Scalar (default PNone (campaign !! "audience_detailed")) ]}.
Proof.
  intros Hreq. rewrite (route_str clk ticket campaign _ Hreq).
  eexists. split; [reflexivity |]. cbn [action platform payload].
  repeat split.
Qed.

Lemma route_new_line_item_sample :
  exists p,
    route frozen_clock line_item_ticket sample_campaign = Ok [p] /\
    action p = "CREATE_LINE_ITEM" /\
    platform p = default (PStr "DV360") (line_item_ticket !! "platform") /\
    payload p =
      {[ "targeting" :=
           Scalar (default PNone (sample_campaign !! "audience_detailed")) ]}.
Proof.
  apply (route_new_line_item frozen_clock line_item_ticket sample_campaign).
  reflexivity.
Defined.

(** X4: for a ticket whose request type is exactly "Targeting Update", the
    router returns exactly one payload: UPDATE_TARGETING on the ticket's
    platform ("DV360" when the ticket has none), with exactly two
    parameters: [new_targeting], the campaign's [audience_detailed], and
    [geo], the campaign's [targeting_geo]; each is [None] when the campaign
    lacks the field, and the ticket's geo is not consulted. *)
Theorem route_targeting_update (clk : Clock) (ticket campaign : Dict) :
  ticket !! "request_type" = Some (PStr "Targeting Update") ->
  exists p,
    route clk ticket campaign = Ok [p] /\
    action p = "UPDATE_TARGETING" /\
    platform p = default (PStr "DV360") (ticket !! "platform") /\
    payload p =
      {[ "new_targeting" :=
           Scalar (default PNone (campaign !! "audience_detailed"));
         "geo" := Scalar (default PNone (campaign !! "targeting_geo")) ]}.
Proof.
  intros Hreq. rewrite (route_str clk ticket campaign _ Hreq).
  eexists. split; [reflexivity |]. cbn [action platform payload].
  repeat split.
Qed.

Lemma route_targeting_update_sample :
  exists p,
    route frozen_clock targeting_ticket sample_campaign = Ok [p] /\
    action p = "UPDATE_TARGETING" /\
    platform p = default (PStr "DV360") (targeting_ticket !! "platform") /\
    payload p =
      {[ "new_targeting" :=
           Scalar (default PNone (sample_campaign !! "audience_detailed"));
         "geo" := Scalar (default PNone (sample_campaign !! "targeting_geo")) ]}.
Proof.
  apply (route_targeting_update frozen_clock targeting_ticket sample_campaign).
  reflexivity.
Defined.

(** X5: for a ticket whose request type is exactly "Site Tagging" or
    "Kochava", the router returns exactly one payload:
    CREATE_FLOODLIGHT_TAG on platform "CM360", with the fixed parameters
    conversion_type "Subscription" and counting_method "STANDARD"; neither
    the ticket's platform nor the campaign has any effect on it. *)
Theorem route_tag_implementation (clk : Clock) (ticket campaign : Dict)
    (s : string) :
  ticket !! "request_type" = Some (PStr s) ->
  s = "Site Tagging" \/ s = "Kochava" ->
  exists p,
    route clk ticket campaign = Ok [p] /\
    action p = "CREATE_FLOODLIGHT_TAG" /\
    platform p = PStr "CM360" /\
    payload p =
      {[ "conversion_type" := Scalar (PStr "Subscription");
         "counting_method" := Scalar (PStr "STANDARD") ]}.
Proof.
  intros Hreq [-> | ->]; rewrite (route_str clk ticket campaign _ Hreq);
    (eexists; split; [reflexivity |]; repeat split).
Qed.

Lemma route_tag_implementation_sample :
  exists p,
    route frozen_clock tagging_ticket sample_campaign = Ok [p] /\
    action p = "CREATE_FLOODLIGHT_TAG" /\
    platform p = PStr "CM360" /\
    payload p =
      {[ "conversion_type" := Scalar (PStr "Subscription");
         "counting_method" := Scalar (PStr "STANDARD") ]}.
Proof.
  apply (route_tag_implementation frozen_clock tagging_ticket sample_campaign
           "Kochava"); [reflexivity | right; reflexivity].
Defined.

(** X6: on a ticket whose request type is a string (the empty string when
    the key is missing), the router returns three payloads when the type
    contains "New Campaign" or "New Placements", no payload when no branch
    recognises the type, and one payload otherwise; so the result is empty
    exactly for the unrecognised types. *)
Theorem route_payload_count (clk : Clock) (ticket campaign : Dict)
    (s : string) :
  get ticket "request_type" (PStr "") = PStr s ->
  exists ps,
    route clk ticket campaign = Ok ps /\
    length ps = (if is_setup s then 3 else if unrecognized s then 0 else 1) /\
    (ps = [] <-> unrecognized s = true).
Proof.
  intros Hs. unfold route.
  rewrite (process_ticket_str ticket campaign s clk 0 Hs). cbv zeta.
  unfold unrecognized, is_setup.
  destruct (contains "New Campaign" s || contains "New Placements" s);
    cbn [orb negb];
    [eexists; split; [reflexivity |]; split; [reflexivity |];
     split; intros; discriminate |].
  destruct (contains "Creative Rotation" s), (contains "Retrafficking" s),
           (String.eqb s "Budget Change"), (String.eqb s "New Line Item"),
           (String.eqb s "Targeting Update"), (String.eqb s "Site Tagging"),
           (String.eqb s "Kochava");
    cbn [orb negb];
    (eexists; split; [reflexivity |]; split; [reflexivity |];
     split; intros; first [discriminate | reflexivity]).
Qed.

Lemma route_payload_count_sample :
  exists ps,
    route frozen_clock no_type_ticket sample_campaign = Ok ps /\
    length ps = (if is_setup "" then 3 else if unrecognized "" then 0 else 1) /\
    (ps = [] <-> unrecognized "" = true).
Proof.
  apply (route_payload_count frozen_clock no_type_ticket sample_campaign "").
  reflexivity.
Defined.

(** X7: a request type that is present and is not a string, as [None] or a
    number, makes the router raise TypeError, for every campaign: the
    default "" only stands in for a missing key. *)
Theorem route_raises_type_error (clk : Clock) (ticket campaign : Dict)
    (v : scalar) :
  ticket !! "request_type" = Some v ->
  (forall s, v <> PStr s) ->
  route clk ticket campaign = Raise TypeError.
Proof.
  intros Hreq Hv. unfold route.
  rewrite process_ticket_not_str; [reflexivity |].
  unfold ticket_typed, str_or_absent. rewrite Hreq.
  destruct v as [| s |]; [reflexivity | | reflexivity].
  exfalso. apply (Hv s). reflexivity.
Qed.

Lemma route_raises_type_error_sample :
  route frozen_clock untyped_ticket sample_campaign = Raise TypeError.
Proof.
  apply (route_raises_type_error frozen_clock untyped_ticket sample_campaign
           PNone); [reflexivity | discriminate].
Defined.

(** X8: the payloads that one call of the router returns carry, in order,
    the successive readings of the clock made by that call: one reading per
    payload, taken when the payload is built. *)
Theorem route_created_at (clk : Clock) (ticket campaign : Dict)
    (ps : list TraffickingPayload) :
  route clk ticket campaign = Ok ps ->
  map created_at ps = map clk (seq 0 (length ps)).
Proof.
  intros Hroute. route_inv Hroute; reflexivity.
Qed.

Lemma route_created_at_sample :
  exists ps,
    route ticking_clock sample_ticket sample_campaign = Ok ps /\
    map created_at ps = map ticking_clock (seq 0 (length ps)).
Proof.
  eexists. split; [reflexivity |].
  apply (route_created_at ticking_clock sample_ticket sample_campaign).
  reflexivity.
Defined.

(** X9: every payload that the router returns has one of the eight action
    tags, and its platform is "CM360" or the ticket's platform ("DV360"
    when the ticket has none). *)
Theorem route_actions_platforms (clk : Clock) (ticket campaign : Dict)
    (ps : list TraffickingPayload) :
  route clk ticket campaign = Ok ps ->
  List.Forall
    (fun p =>
       In (action p) actions /\
       (platform p = PStr "CM360" \/
        platform p = default (PStr "DV360") (ticket !! "platform"))) ps.
Proof.
  intros Hroute. route_inv Hroute;
    repeat first [apply List.Forall_nil | apply List.Forall_cons];
    (split;
     [ cbn [action actions In]; tauto
     | first [left; reflexivity | right; reflexivity] ]).
Qed.

Lemma route_actions_platforms_sample :
  exists ps,
    route frozen_clock sample_ticket sample_campaign = Ok ps /\
    List.Forall
      (fun p =>
         In (action p) actions /\
         (platform p = PStr "CM360" \/
          platform p = default (PStr "DV360") (sample_ticket !! "platform")))
      ps.
Proof.
  eexists. split; [reflexivity |].
  apply (route_actions_platforms frozen_clock sample_ticket sample_campaign).
  reflexivity.
Defined.

(** * Further properties of the taxonomy string and the version table *)

(** X10: the taxonomy string depends on the campaign only through its seven
    naming fields, and on the ticket only through [targeting_geo] when the
    campaign has no geo and through [brand] when the campaign has no brand
    code: two calls whose inputs agree there return the same string.  In
    particular a campaign that has both fields makes the ticket
    irrelevant. *)
Theorem taxonomy_reads (t1 t2 c1 c2 : Dict) :
  (forall k,
     In k [ "campaign_name"; "targeting_geo"; "language"; "brand_code";
            "title_name"; "campaign_objective"; "channel_mapped" ] ->
     c1 !! k = c2 !! k) ->
  (c1 !! "targeting_geo" = None ->
   t1 !! "targeting_geo" = t2 !! "targeting_geo") ->
  (c1 !! "brand_code" = None -> t1 !! "brand" = t2 !! "brand") ->
  build_placement_taxonomy t1 c1 = build_placement_taxonomy t2 c2.
Proof.
  intros Hc Hgeo Hbrand. unfold build_placement_taxonomy, get.
  rewrite <- (Hc "campaign_name"), <- (Hc "targeting_geo"),
    <- (Hc "language"), <- (Hc "brand_code"), <- (Hc "title_name"),
    <- (Hc "campaign_objective"), <- (Hc "channel_mapped")
    by (cbn [In]; tauto).
  destruct (c1 !! "targeting_geo"); [| rewrite (Hgeo eq_refl)];
    (destruct (c1 !! "brand_code"); [| rewrite (Hbrand eq_refl)]);
    reflexivity.
Qed.

Lemma taxonomy_reads_sample :
  build_placement_taxonomy branded_ticket taxonomy_campaign =
  build_placement_taxonomy sample_ticket taxonomy_campaign.
Proof.
  apply (taxonomy_reads branded_ticket sample_ticket taxonomy_campaign
           taxonomy_campaign);
    [reflexivity | discriminate | discriminate].
Defined.

Lemma append_cons (c : ascii) (a x : string) :
  String c a +:+ x = String c (a +:+ x).
Proof. reflexivity. Qed.

Lemma pipe_field_inj (a b x y : string) :
  pipe_free a -> pipe_free b ->
  a +:+ "|" +:+ x = b +:+ "|" +:+ y -> a = b /\ x = y.
Proof.
  unfold pipe_free. revert b.
  induction a as [|c a IH]; intros [|d b] Ha Hb Heq;
    rewrite ?append_cons in Heq; cbn [count_char] in Ha, Hb.
  - change (String "|" x = String "|" y) in Heq.
    injection Heq as Heq. split; [reflexivity | exact Heq].
  - change (String "|" x = String d (b +:+ "|" +:+ y)) in Heq.
    injection Heq as Hd _. rewrite <- Hd, Ascii.eqb_refl in Hb.
    discriminate Hb.
  - change (String c (a +:+ "|" +:+ x) = String "|" y) in Heq.
    injection Heq as Hc _. rewrite Hc, Ascii.eqb_refl in Ha.
    discriminate Ha.
  - injection Heq as Hcd Heq. subst d.
    destruct (Ascii.eqb c "|"); [discriminate Ha |].
    destruct (IH b Ha Hb Heq) as [Hab Hxy].
    split; [rewrite Hab; reflexivity | exact Hxy].
Qed.

Lemma join_pipe_inj (fs gs : list string) :
  length fs = length gs ->
  List.Forall pipe_free fs -> List.Forall pipe_free gs ->
  join_pipe fs = join_pipe gs -> fs = gs.
Proof.
  revert gs. induction fs as [|f fs IH]; intros [|g gs] Hlen Hfs Hgs Heq;
    try discriminate Hlen; [reflexivity |].
  injection Hlen as Hlen.
  inversion Hfs as [|? ? Hf Hfs']; subst.
  inversion Hgs as [|? ? Hg Hgs']; subst.
  destruct fs as [|f' fs]; destruct gs as [|g' gs]; try discriminate Hlen.
  - cbn [join_pipe] in Heq. rewrite Heq. reflexivity.
  - change (f +:+ "|" +:+ join_pipe (f' :: fs) =
            g +:+ "|" +:+ join_pipe (g' :: gs)) in Heq.
    destruct (pipe_field_inj _ _ _ _ Hf Hg Heq) as [-> Hrest].
    rewrite (IH (g' :: gs) Hlen Hfs' Hgs' Hrest). reflexivity.
Qed.

(** X11: the taxonomy string names its fields unambiguously as long as no
    field value contains a pipe: two inputs whose seven resolved fields are
    free of pipes and whose taxonomy strings are equal have the same seven
    fields. *)
Theorem taxonomy_unambiguous (t1 t2 c1 c2 : Dict) :
  List.Forall pipe_free (taxonomy_fields t1 c1) ->
  List.Forall pipe_free (taxonomy_fields t2 c2) ->
  build_placement_taxonomy t1 c1 = build_placement_taxonomy t2 c2 ->
  taxonomy_fields t1 c1 = taxonomy_fields t2 c2.
Proof.
  intros H1 H2 Heq. rewrite !build_placement_taxonomy_fields in Heq.
  apply join_pipe_inj; [reflexivity | exact H1 | exact H2 | exact Heq].
Qed.

Lemma taxonomy_unambiguous_sample :
  taxonomy_fields ∅ taxonomy_campaign =
  taxonomy_fields sample_ticket taxonomy_campaign.
Proof.
  apply (taxonomy_unambiguous ∅ sample_ticket taxonomy_campaign
           taxonomy_campaign);
    [repeat constructor | repeat constructor | reflexivity].
Defined.

(** X12: [get_eve_version] returns one of "V1", "V2", "V2.1", "V2.2", "V3",
    and every tag but "V1" identifies its row: "V2.2" is returned exactly
    for CM360 with ProgAudio, ProgCTV or ProgNative, "V2.1" exactly for
    CM360 with YouTube, "V2" exactly for Yahoo DSP and "V3" exactly for
    Amazon DSP; the comparison is case-sensitive and exact. *)
Theorem get_eve_version_inversion (platform channel : string) :
  In (get_eve_version platform channel) tiers /\
  (get_eve_version platform channel = "V2.2" <->
   platform = "CM360" /\ In channel ["ProgAudio"; "ProgCTV"; "ProgNative"]) /\
  (get_eve_version platform channel = "V2.1" <->
   platform = "CM360" /\ channel = "YouTube") /\
  (get_eve_version platform channel = "V2" <-> platform = "Yahoo DSP") /\
  (get_eve_version platform channel = "V3" <-> platform = "Amazon DSP").
Proof.
  unfold get_eve_version, tiers. cbn [existsb In].
  destruct (String.eqb_spec platform "CM360") as [-> | Hcm]; cbn [andb].
  - change (String.eqb "CM360" "Yahoo DSP") with false.
    change (String.eqb "CM360" "Amazon DSP") with false.
    change (String.eqb "CM360" "DV360") with false.
    destruct (String.eqb_spec channel "ProgAudio") as [-> | H1];
      [cbn [orb]; intuition (first [discriminate | congruence]) |].
    destruct (String.eqb_spec channel "ProgCTV") as [-> | H2];
      [cbn [orb]; intuition (first [discriminate | congruence]) |].
    destruct (String.eqb_spec channel "ProgNative") as [-> | H3];
      [cbn [orb]; intuition (first [discriminate | congruence]) |].
    cbn [orb].
    destruct (String.eqb_spec channel "YouTube") as [-> | H4];
      intuition (first [discriminate | congruence]).
  - destruct (String.eqb_spec platform "Yahoo DSP") as [-> | Hy];
      [intuition (first [discriminate | congruence]) |].
    destruct (String.eqb_spec platform "Amazon DSP") as [-> | Ha];
      [intuition (first [discriminate | congruence]) |].
    destruct (String.eqb_spec platform "DV360") as [-> | Hd];
      intuition (first [discriminate | congruence]).
Qed.

(** * Further properties of the checks *)

(** X13: on a campaign whose [targeting_geo], when present, is [None], a
    string or an integer, the Targeting check does not raise; its result is
    "Fail", with details containing "Missing geo", exactly when the geo is
    missing, [None], the empty string or the integer 0, and otherwise "Pass"
    with the details "Geo targeting found: " followed by the geo as text. *)
Theorem check_targeting_verdict (ps : list TraffickingPayload)
    (campaign : Dict) :
  exists r,
    check_targeting ps campaign = Ok r /\
    check r = "Targeting" /\
    (result r = "Fail" <->
     campaign !! "targeting_geo" = None \/
     campaign !! "targeting_geo" = Some PNone \/
     campaign !! "targeting_geo" = Some (PStr "") \/
     campaign !! "targeting_geo" = Some (PInt 0)) /\
    (result r = "Fail" -> contains "Missing geo" (details r) = true) /\
    (result r <> "Fail" ->
     exists geo,
       campaign !! "targeting_geo" = Some geo /\
       result r = "Pass" /\
       details r = "Geo targeting found: " +:+ py_str geo).
Proof.
  unfold check_targeting, get.
  destruct (campaign !! "targeting_geo") as [[| s | z]|]; cbn [truthy negb].
  - eexists. split; [reflexivity |]. cbn [check result details].
    intuition (first [discriminate | congruence | reflexivity]).
  - destruct (String.eqb_spec s "") as [-> | Hs]; cbn [negb];
      (eexists; split; [reflexivity |]); cbn [check result details].
    + intuition (first [discriminate | congruence | reflexivity]).
    + repeat split; intros; try discriminate.
      * destruct H as [H | [H | [H | H]]]; congruence.
      * exists (PStr s). repeat split.
  - destruct (Z.eqb_spec z 0) as [-> | Hz]; cbn [negb];
      (eexists; split; [reflexivity |]); cbn [check result details].
    + intuition (first [discriminate | congruence | reflexivity]).
    + repeat split; intros; try discriminate.
      * destruct H as [H | [H | [H | H]]]; congruence.
      * exists (PInt z). repeat split.
  - eexists. split; [reflexivity |]. cbn [check result details].
    intuition (first [discriminate | congruence | reflexivity]).
Qed.

Lemma forallb_false {A} (f : A -> bool) (l : list A) :
  forallb f l = false <-> exists x, In x l /\ f x = false.
Proof.
  induction l as [|a l IH]; cbn [forallb In].
  - split; [discriminate | intros (x & [] & _)].
  - rewrite andb_false_iff, IH. split.
    + intros [Ha | (x & Hx & Hfx)]; [exists a | exists x]; tauto.
    + intros (x & [-> | Hx] & Hfx); [left; exact Hfx | right; exists x; tauto].
Qed.

Lemma placement_ok_false (p : TraffickingPayload) :
  placement_ok p = false <->
  action p = "CREATE_PLACEMENT" /\ count_char "|" (placement_name p) < 6.
Proof.
  unfold placement_ok.
  destruct (String.eqb_spec (action p) "CREATE_PLACEMENT") as [Ha | Ha].
  - rewrite Nat.leb_gt. tauto.
  - split; [discriminate | tauto].
Qed.

(** On payloads whose placement names are strings, the Taxonomy Validation
    check is the test that every placement has its six pipes. *)
Lemma check_taxonomy_eq (ps : list TraffickingPayload) (campaign : Dict) :
  payloads_typed ps = true ->
  check_taxonomy ps campaign =
  Ok (if forallb placement_ok ps
      then mkQA "Taxonomy Validation" "Pass" "Taxonomy valid."
      else mkQA "Taxonomy Validation" "Fail"
             "Placement name does not follow pipe-delimited convention.").
Proof.
  unfold check_taxonomy.
  induction ps as [|p ps IH]; intros Hty; [reflexivity |].
  cbn [payloads_typed forallb] in Hty. apply andb_true_iff in Hty as [Hp Hps].
  specialize (IH Hps). cbn [List.filter forallb].
  unfold payload_typed in Hp. unfold placement_ok at 1. unfold placement_name.
  destruct (String.eqb (action p) "CREATE_PLACEMENT"); [| exact IH].
  cbn [taxonomy_loop]. unfold get.
  destruct (payload p !! "placement_name") as [[[| s |]|]|];
    try discriminate Hp; cbv [py_count mbind res_mbind res_bind].
  - rewrite Nat.ltb_antisym.
    destruct (Nat.leb 6 (count_char "|" s)); [exact IH | reflexivity].
  - reflexivity.
Qed.

(** X14: on payloads whose placement names are strings (or missing), the
    Taxonomy Validation check returns "Fail" exactly when some payload with
    action CREATE_PLACEMENT has fewer than six pipes in its placement name,
    a missing name counting as the empty string, and "Pass" otherwise;
    payloads with another action are not looked at, so a list without
    placements passes. *)
Theorem check_taxonomy_verdict (ps : list TraffickingPayload)
    (campaign : Dict) :
  payloads_typed ps = true ->
  exists r,
    check_taxonomy ps campaign = Ok r /\
    check r = "Taxonomy Validation" /\
    (result r = "Fail" \/ result r = "Pass") /\
    (result r = "Fail" <->
     exists p, In p ps /\ action p = "CREATE_PLACEMENT" /\
               count_char "|" (placement_name p) < 6).
Proof.
  intros Hty. rewrite (check_taxonomy_eq ps campaign Hty).
  destruct (forallb placement_ok ps) eqn:Hall;
    (eexists; split; [reflexivity |]); cbn [check result].
  - split; [reflexivity |]. split; [right; reflexivity |].
    split; [discriminate |].
    intros (p & Hin & Hp). apply placement_ok_false in Hp.
    rewrite forallb_forall in Hall. rewrite (Hall p Hin) in Hp.
    discriminate Hp.
  - split; [reflexivity |]. split; [left; reflexivity |].
    split; [intros _ | reflexivity].
    apply forallb_false in Hall as (p & Hin & Hp).
    exists p. split; [exact Hin | apply placement_ok_false; exact Hp].
Qed.

Lemma check_taxonomy_verdict_sample :
  exists r,
    check_taxonomy [sample_payload; good_placement; short_placement]
      sample_campaign = Ok r /\
    check r = "Taxonomy Validation" /\
    (result r = "Fail" \/ result r = "Pass") /\
    (result r = "Fail" <->
     exists p, In p [sample_payload; good_placement; short_placement] /\
               action p = "CREATE_PLACEMENT" /\
               count_char "|" (placement_name p) < 6).
Proof.
  apply (check_taxonomy_verdict
           [sample_payload; good_placement; short_placement] sample_campaign).
  reflexivity.
Defined.

(** The loop of [check_taxonomy] walks past every payload it lets through. *)
Lemma check_taxonomy_skip (ps rest : list TraffickingPayload)
    (campaign : Dict) :
  payloads_typed ps = true ->
  forallb placement_ok ps = true ->
  check_taxonomy (ps ++ rest) campaign = check_taxonomy rest campaign.
Proof.
  unfold check_taxonomy.
  induction ps as [|p ps IH]; intros Hty Hok; [reflexivity |].
  cbn [payloads_typed forallb] in Hty, Hok.
  apply andb_true_iff in Hty as [Hp Hps].
  apply andb_true_iff in Hok as [Hpok Hpsok].
  specialize (IH Hps Hpsok).
  change (((p :: ps) ++ rest)%list) with (p :: (ps ++ rest)%list).
  cbn [List.filter].
  unfold payload_typed in Hp. unfold placement_ok, placement_name in Hpok.
  destruct (String.eqb (action p) "CREATE_PLACEMENT"); [| exact IH].
  cbn [taxonomy_loop]. unfold get.
  destruct (payload p !! "placement_name") as [[[| s |]|]|];
    try discriminate Hp; try discriminate Hpok.
  cbv [py_count mbind res_mbind res_bind].
  rewrite Nat.ltb_antisym, Hpok. exact IH.
Qed.

(** X15: the Taxonomy Validation check stops at the first placement whose
    name has fewer than six pipes: it returns "Fail" there and does not
    inspect the payloads after it, whatever they hold. *)
Theorem check_taxonomy_first_failure (ps : list TraffickingPayload)
    (p : TraffickingPayload) (rest : list TraffickingPayload)
    (campaign : Dict) :
  payloads_typed ps = true ->
  forallb placement_ok ps = true ->
  payload_typed p = true ->
  placement_ok p = false ->
  check_taxonomy (ps ++ p :: rest) campaign =
  Ok (mkQA "Taxonomy Validation" "Fail"
        "Placement name does not follow pipe-delimited convention.").
Proof.
  intros Hty Hok Hp Hbad.
  rewrite (check_taxonomy_skip ps (p :: rest) campaign Hty Hok).
  unfold check_taxonomy. cbn [List.filter].
  unfold payload_typed in Hp. unfold placement_ok, placement_name in Hbad.
  destruct (String.eqb (action p) "CREATE_PLACEMENT"); [| discriminate Hbad].
  cbn [taxonomy_loop]. unfold get.
  destruct (payload p !! "placement_name") as [[[| s |]|]|];
    try discriminate Hp; cbv [py_count mbind res_mbind res_bind].
  - rewrite Nat.ltb_antisym, Hbad. reflexivity.
  - reflexivity.
Qed.

Lemma check_taxonomy_first_failure_sample :
  check_taxonomy
    ([sample_payload; good_placement] ++ short_placement :: [unnamed_placement])
    sample_campaign =
  Ok (mkQA "Taxonomy Validation" "Fail"
        "Placement name does not follow pipe-delimited convention.").
Proof.
  apply (check_taxonomy_first_failure [sample_payload; good_placement]
           short_placement [unnamed_placement] sample_campaign);
    reflexivity.
Defined.

(** X16: a placement whose name is [None] or a number makes the Taxonomy
    Validation check raise AttributeError, when every payload before it is
    let through. *)
Theorem check_taxonomy_raises (ps : list TraffickingPayload)
    (p : TraffickingPayload) (rest : list TraffickingPayload)
    (campaign : Dict) :
  payloads_typed ps = true ->
  forallb placement_ok ps = true ->
  placement_unnamed p = true ->
  check_taxonomy (ps ++ p :: rest) campaign = Raise AttributeError.
Proof.
  intros Hty Hok Hp.
  rewrite (check_taxonomy_skip ps (p :: rest) campaign Hty Hok).
  unfold check_taxonomy. cbn [List.filter].
  unfold placement_unnamed in Hp. apply andb_true_iff in Hp as [Hact Hname].
  rewrite Hact. cbn [taxonomy_loop]. unfold get.
  destruct (payload p !! "placement_name") as [[[| s |]|]|];
    try discriminate Hname; reflexivity.
Qed.

Lemma check_taxonomy_raises_sample :
  check_taxonomy ([good_placement] ++ unnamed_placement :: [short_placement])
    sample_campaign = Raise AttributeError.
Proof.
  apply (check_taxonomy_raises [good_placement] unnamed_placement
           [short_placement] sample_campaign); reflexivity.
Defined.

(** ** The results as a whole *)

Lemma taxonomy_loop_well_formed (l : list TraffickingPayload) (r : QAResult) :
  taxonomy_loop l = Ok r -> well_formed r.
Proof.
  induction l as [|p l IH]; cbn [taxonomy_loop].
  - intros H. injection H as <-. split; cbn; tauto.
  - destruct (py_count (get (payload p) "placement_name" (Scalar (PStr ""))) "|")
      as [n | e]; cbv [mbind res_mbind res_bind]; [| discriminate].
    destruct (Nat.ltb n 6); [| exact IH].
    intros H. injection H as <-. split; cbn; tauto.
Qed.

(** A returned list of eight results comes from eight checks that all
    returned. *)
Lemma run_all_checks_inv (p : TraffickingPayload)
    (ps : list TraffickingPayload) (campaign : Dict) (rs : list QAResult) :
  run_all_checks (p :: ps) campaign = Ok rs ->
  exists r1 r2 r3 r4 r5 r6 r7 r8,
    rs = [r1; r2; r3; r4; r5; r6; r7; r8] /\
    check_spec_compliance (p :: ps) campaign = Ok r1 /\
    check_tracking (p :: ps) campaign = Ok r2 /\
    check_targeting (p :: ps) campaign = Ok r3 /\
    check_frequency_cap (p :: ps) campaign = Ok r4 /\
    check_content_exclusions (p :: ps) campaign = Ok r5 /\
    check_landing_page (p :: ps) campaign = Ok r6 /\
    check_taxonomy (p :: ps) campaign = Ok r7 /\
    check_floodlight_tags (p :: ps) campaign = Ok r8.
Proof.
  intros H. unfold run_all_checks in H.
  cbv [mbind res_mbind res_bind mret res_mret] in H.
  destruct (check_spec_compliance (p :: ps) campaign) as [r1|];
    [| discriminate H].
  destruct (check_tracking (p :: ps) campaign) as [r2|]; [| discriminate H].
  destruct (check_targeting (p :: ps) campaign) as [r3|]; [| discriminate H].
  destruct (check_frequency_cap (p :: ps) campaign) as [r4|];
    [| discriminate H].
  destruct (check_content_exclusions (p :: ps) campaign) as [r5|];
    [| discriminate H].
  destruct (check_landing_page (p :: ps) campaign) as [r6|];
    [| discriminate H].
  destruct (check_taxonomy (p :: ps) campaign) as [r7|]; [| discriminate H].
  destruct (check_floodlight_tags (p :: ps) campaign) as [r8|];
    [| discriminate H].
  injection H as <-.
  exists r1, r2, r3, r4, r5, r6, r7, r8. repeat split.
Qed.

Ltac wf_done :=
  let H := fresh "H" in
  intros H; injection H as <-;
  split; cbn [result check verdicts check_names In]; tauto.

(** Whatever a check returns is a well-formed result. *)
Section WellFormed.

Variable ps : list TraffickingPayload.
Variable campaign : Dict.
Variable r : QAResult.

Lemma check_spec_compliance_well_formed :
  check_spec_compliance ps campaign = Ok r -> well_formed r.
Proof. unfold check_spec_compliance. destruct ps; wf_done. Qed.

Lemma check_tracking_well_formed :
  check_tracking ps campaign = Ok r -> well_formed r.
Proof. unfold check_tracking. wf_done. Qed.

Lemma check_targeting_well_formed :
  check_targeting ps campaign = Ok r -> well_formed r.
Proof.
  unfold check_targeting. cbv zeta.
  destruct (negb (truthy (get campaign "targeting_geo" PNone))); wf_done.
Qed.

Lemma check_frequency_cap_well_formed :
  check_frequency_cap ps campaign = Ok r -> well_formed r.
Proof.
  unfold check_frequency_cap. cbv zeta.
  destruct (or_else _ _) as [[|] | e]; cbv [mbind res_mbind res_bind];
    [wf_done | wf_done | discriminate].
Qed.

Lemma check_content_exclusions_well_formed :
  check_content_exclusions ps campaign = Ok r -> well_formed r.
Proof.
  unfold check_content_exclusions. cbv zeta.
  destruct (or_else _ _) as [[|] | e]; cbv [mbind res_mbind res_bind];
    [wf_done | wf_done | discriminate].
Qed.

Lemma check_landing_page_well_formed :
  check_landing_page ps campaign = Ok r -> well_formed r.
Proof.
  unfold check_landing_page. cbv zeta.
  destruct (py_startswith _ _) as [[|] | e];
    cbv [mbind res_mbind res_bind negb];
    [wf_done | wf_done | discriminate].
Qed.

Lemma check_taxonomy_well_formed :
  check_taxonomy ps campaign = Ok r -> well_formed r.
Proof. unfold check_taxonomy. apply taxonomy_loop_well_formed. Qed.

Lemma check_floodlight_tags_well_formed :
  check_floodlight_tags ps campaign = Ok r -> well_formed r.
Proof. unfold check_floodlight_tags. wf_done. Qed.

End WellFormed.

(** X17: whenever the evaluator returns, every result carries one of the
    verdicts "Pass", "Fail", "Needs Review" and the name of one of the eight
    checks, and there is one result when there is no payload and eight
    otherwise. *)
Theorem run_all_checks_well_formed (ps : list TraffickingPayload)
    (campaign : Dict) (rs : list QAResult) :
  run_all_checks ps campaign = Ok rs ->
  List.Forall well_formed rs /\
  length rs = match ps with [] => 1 | _ :: _ => 8 end.
Proof.
  intros H. destruct ps as [|p ps].
  - injection H as <-. split; [| reflexivity].
    repeat constructor; cbn; tauto.
  - destruct (run_all_checks_inv p ps campaign rs H)
      as (r1 & r2 & r3 & r4 & r5 & r6 & r7 & r8 &
          -> & H1 & H2 & H3 & H4 & H5 & H6 & H7 & H8).
    split; [| reflexivity].
    repeat first [apply List.Forall_nil | apply List.Forall_cons].
    + exact (check_spec_compliance_well_formed _ _ _ H1).
    + exact (check_tracking_well_formed _ _ _ H2).
    + exact (check_targeting_well_formed _ _ _ H3).
    + exact (check_frequency_cap_well_formed _ _ _ H4).
    + exact (check_content_exclusions_well_formed _ _ _ H5).
    + exact (check_landing_page_well_formed _ _ _ H6).
    + exact (check_taxonomy_well_formed _ _ _ H7).
    + exact (check_floodlight_tags_well_formed _ _ _ H8).
Qed.

Lemma run_all_checks_well_formed_sample :
  exists rs,
    run_all_checks [sample_payload] passing_campaign = Ok rs /\
    List.Forall well_formed rs /\
    length rs = 8.
Proof.
  eexists. split; [reflexivity |].
  apply (run_all_checks_well_formed [sample_payload] passing_campaign).
  reflexivity.
Defined.

Lemma check_frequency_cap_pass (ps : list TraffickingPayload)
    (campaign : Dict) (r : QAResult) :
  check_frequency_cap ps campaign = Ok r -> result r = "Pass".
Proof.
  unfold check_frequency_cap. cbv zeta.
  destruct (or_else _ _) as [[|] | e]; cbv [mbind res_mbind res_bind];
    intros H; try discriminate H; injection H as <-; reflexivity.
Qed.

(** The eight results on well-typed inputs and at least one payload. *)
Lemma run_all_checks_explicit (ps : list TraffickingPayload)
    (campaign : Dict) :
  ps <> [] ->
  campaign_typed campaign = true ->
  payloads_typed ps = true ->
  exists name url r4,
    get campaign "campaign_name" (PStr "") = PStr name /\
    get campaign "landing_page" (PStr "https://disneyplus.com") = PStr url /\
    result r4 = "Pass" /\
    run_all_checks ps campaign =
    Ok [ mkQA "Spec Compliance" "Pass" "Creative matches spec.";
         mkQA "Tracking" "Pass" "Tracking tags configured.";
         (if negb (truthy (get campaign "targeting_geo" PNone))
          then mkQA "Targeting" "Fail" "Missing geo targeting."
          else mkQA "Targeting" "Pass"
                 ("Geo targeting found: " +:+
                  py_str (get campaign "targeting_geo" PNone)));
         r4;
         (if contains "BES" name || contains "Sponsorship" name
          then mkQA "Content Exclusions" "Needs Review"
                 "Sponsorship requires S&P review."
          else mkQA "Content Exclusions" "Pass" "Standard exclusions applied.");
         (if startswith url "https://"
          then mkQA "Landing Page" "Pass" "Click-through URLs act recursively."
          else mkQA "Landing Page" "Fail" ("Non-HTTPS URL provided: " +:+ url));
         (if forallb placement_ok ps
          then mkQA "Taxonomy Validation" "Pass" "Taxonomy valid."
          else mkQA "Taxonomy Validation" "Fail"
                 "Placement name does not follow pipe-delimited convention.");
         mkQA "Floodlight Tags" "Pass" "Conversion tags correctly assigned." ].
Proof.
  intros Hne Hc Hps. destruct (andb_prop _ _ Hc) as [Hname Hurl].
  destruct (check_frequency_cap_typed ps campaign Hname) as (r4 & H4 & _).
  destruct (check_content_exclusions_typed ps campaign Hname)
    as (name & Hn & H5).
  destruct (check_landing_page_typed ps campaign Hurl) as (url & Hu & H6).
  pose proof (check_taxonomy_eq ps campaign Hps) as H7.
  exists name, url, r4.
  split; [exact Hn |]. split; [exact Hu |].
  split; [exact (check_frequency_cap_pass ps campaign r4 H4) |].
  destruct ps as [|p ps]; [contradiction |].
  unfold run_all_checks. rewrite H4, H5, H6, H7.
  unfold check_targeting. cbv zeta.
  destruct (negb (truthy (get campaign "targeting_geo" PNone))); reflexivity.
Qed.

(** X18: on well-typed inputs and at least one payload, all eight results
    are "Pass" exactly when the campaign's geo is present and truthy, its
    name contains neither "BES" nor "Sponsorship", its landing page (or the
    default) starts with "https://", and every placement has its six pipes:
    the four other checks never stand in the way. *)
Theorem run_all_checks_all_pass (ps : list TraffickingPayload)
    (campaign : Dict) :
  ps <> [] ->
  campaign_typed campaign = true ->
  payloads_typed ps = true ->
  exists rs name url,
    run_all_checks ps campaign = Ok rs /\
    get campaign "campaign_name" (PStr "") = PStr name /\
    get campaign "landing_page" (PStr "https://disneyplus.com") = PStr url /\
    all_pass rs =
      truthy (get campaign "targeting_geo" PNone) &&
      negb (contains "BES" name || contains "Sponsorship" name) &&
      startswith url "https://" &&
      forallb placement_ok ps.
Proof.
  intros Hne Hc Hps.
  destruct (run_all_checks_explicit ps campaign Hne Hc Hps)
    as (name & url & r4 & Hn & Hu & Hr4 & Hrun).
  eexists. exists name, url.
  split; [exact Hrun |]. split; [exact Hn |]. split; [exact Hu |].
  unfold all_pass. cbn [forallb]. rewrite Hr4.
  destruct (truthy (get campaign "targeting_geo" PNone)),
           (contains "BES" name || contains "Sponsorship" name),
           (startswith url "https://"),
           (forallb placement_ok ps); reflexivity.
Qed.

Lemma run_all_checks_all_pass_sample :
  exists rs name url,
    run_all_checks [sample_payload] passing_campaign = Ok rs /\
    get passing_campaign "campaign_name" (PStr "") = PStr name /\
    get passing_campaign "landing_page" (PStr "https://disneyplus.com") =
      PStr url /\
    all_pass rs =
      truthy (get passing_campaign "targeting_geo" PNone) &&
      negb (contains "BES" name || contains "Sponsorship" name) &&
      startswith url "https://" &&
      forallb placement_ok [sample_payload].
Proof.
  apply (run_all_checks_all_pass [sample_payload] passing_campaign);
    [discriminate | reflexivity | reflexivity].
Defined.

(** X19: the evaluator applied to what the router returns, for a ticket and
    a campaign that are well typed: both return; when the router returns no
    payload the only result is the failed Spec Compliance check with the
    details "No payloads to QA."; otherwise there are eight results, of
    which Spec Compliance and Taxonomy Validation pass, so that all pass
    exactly when geo, name and landing page allow it. *)
Theorem run_all_checks_after_route (clk : Clock) (ticket campaign : Dict) :
  ticket_typed ticket = true ->
  campaign_typed campaign = true ->
  exists ps rs name url,
    route clk ticket campaign = Ok ps /\
    run_all_checks ps campaign = Ok rs /\
    get campaign "campaign_name" (PStr "") = PStr name /\
    get campaign "landing_page" (PStr "https://disneyplus.com") = PStr url /\
    match ps with
    | [] => rs = [mkQA "Spec Compliance" "Fail" "No payloads to QA."]
    | _ :: _ =>
        length rs = 8 /\
        nth_error rs 0 =
          Some (mkQA "Spec Compliance" "Pass" "Creative matches spec.") /\
        nth_error rs 6 =
          Some (mkQA "Taxonomy Validation" "Pass" "Taxonomy valid.") /\
        all_pass rs =
          truthy (get campaign "targeting_geo" PNone) &&
          negb (contains "BES" name || contains "Sponsorship" name) &&
          startswith url "https://"
    end.
Proof.
  intros Ht Hc.
  destruct (typed_request_type ticket Ht) as [s Hs].
  destruct (process_ticket_payloads ticket campaign s clk 0 Hs)
    as (ps & n' & Hrun & _ & Hps).
  assert (Hroute : route clk ticket campaign = Ok ps)
    by (unfold route; rewrite Hrun; reflexivity).
  destruct (andb_prop _ _ Hc) as [Hname Hurl].
  destruct (check_content_exclusions_typed ps campaign Hname)
    as (name & Hn & _).
  destruct (check_landing_page_typed ps campaign Hurl) as (url & Hu & _).
  destruct ps as [|p ps].
  - exists [], [mkQA "Spec Compliance" "Fail" "No payloads to QA."], name, url.
    repeat split; assumption.
  - destruct (run_all_checks_explicit (p :: ps) campaign)
      as (name' & url' & r4 & Hn' & Hu' & Hr4 & Hchecks);
      [discriminate | exact Hc | exact Hps |].
    rewrite Hn in Hn'. rewrite Hu in Hu'.
    injection Hn' as <-. injection Hu' as <-.
    pose proof (check_taxonomy_passes_route clk ticket campaign (p :: ps)
                  Hroute) as Htax.
    rewrite (check_taxonomy_eq (p :: ps) campaign Hps) in Htax.
    destruct (forallb placement_ok (p :: ps)); [| discriminate Htax].
    exists (p :: ps). eexists. exists name, url.
    split; [exact Hroute |]. split; [exact Hchecks |].
    split; [exact Hn |]. split; [exact Hu |].
    split; [reflexivity |]. split; [reflexivity |]. split; [reflexivity |].
    unfold all_pass. cbn [forallb]. rewrite Hr4.
    destruct (truthy (get campaign "targeting_geo" PNone)),
             (contains "BES" name || contains "Sponsorship" name),
             (startswith url "https://"); reflexivity.
Qed.

Lemma run_all_checks_after_route_sample :
  exists ps rs name url,
    route frozen_clock sample_ticket sample_campaign = Ok ps /\
    run_all_checks ps sample_campaign = Ok rs /\
    get sample_campaign "campaign_name" (PStr "") = PStr name /\
    get sample_campaign "landing_page" (PStr "https://disneyplus.com") =
      PStr url /\
    match ps with
    | [] => rs = [mkQA "Spec Compliance" "Fail" "No payloads to QA."]
    | _ :: _ =>
        length rs = 8 /\
        nth_error rs 0 =
          Some (mkQA "Spec Compliance" "Pass" "Creative matches spec.") /\
        nth_error rs 6 =
          Some (mkQA "Taxonomy Validation" "Pass" "Taxonomy valid.") /\
        all_pass rs =
          truthy (get sample_campaign "targeting_geo" PNone) &&
          negb (contains "BES" name || contains "Sponsorship" name) &&
          startswith url "https://"
    end.
Proof.
  apply (run_all_checks_after_route frozen_clock sample_ticket sample_campaign);
    reflexivity.
Defined.

(** X20: on at least one payload, a campaign whose name is [None] or an
    integer makes the evaluator raise TypeError, from the Frequency Cap
    check; one whose name is a string or missing and whose landing page is
    [None] or an integer makes it raise AttributeError, from the Landing
    Page check.  No result is returned in either case. *)
Theorem run_all_checks_raises (ps : list TraffickingPayload)
    (campaign : Dict) :
  ps <> [] ->
  campaign_typed campaign = false ->
  run_all_checks ps campaign =
  Raise (if str_or_absent campaign "campaign_name"
         then AttributeError else TypeError).
Proof.
  intros Hne Hc. destruct ps as [|p ps]; [contradiction |].
  unfold run_all_checks.
  destruct (check_targeting_ok (p :: ps) campaign) as (r3 & H3 & _).
  rewrite H3.
  destruct (str_or_absent campaign "campaign_name") eqn:Hname.
  - destruct (check_frequency_cap_typed (p :: ps) campaign Hname)
      as (r4 & H4 & _).
    destruct (check_content_exclusions_ok (p :: ps) campaign Hname)
      as (r5 & H5 & _).
    rewrite H4, H5.
    unfold campaign_typed in Hc. rewrite Hname in Hc. cbn [andb] in Hc.
    assert (H6 : check_landing_page (p :: ps) campaign = Raise AttributeError).
    { unfold check_landing_page, get. unfold str_or_absent in Hc.
      destruct (campaign !! "landing_page") as [[| |]|];
        try discriminate Hc; reflexivity. }
    rewrite H6. reflexivity.
  - assert (H4 : check_frequency_cap (p :: ps) campaign = Raise TypeError).
    { unfold check_frequency_cap, get. unfold str_or_absent in Hname.
      destruct (campaign !! "campaign_name") as [[| |]|];
        try discriminate Hname; reflexivity. }
    rewrite H4. reflexivity.
Qed.

Lemma run_all_checks_raises_sample :
  run_all_checks [sample_payload] null_page_campaign = Raise AttributeError.
Proof.
  apply (run_all_checks_raises [sample_payload] null_page_campaign);
    [discriminate | reflexivity].
Defined.

Lemma taxonomy_loop_name (l : list TraffickingPayload) (r : QAResult) :
  taxonomy_loop l = Ok r -> check r = "Taxonomy Validation".
Proof.
  induction l as [|p l IH]; cbn [taxonomy_loop].
  - intros H. injection H as <-. reflexivity.
  - destruct (py_count (get (payload p) "placement_name" (Scalar (PStr ""))) "|")
      as [n | e]; cbv [mbind res_mbind res_bind]; [| discriminate].
    destruct (Nat.ltb n 6); [| exact IH].
    intros H. injection H as <-. reflexivity.
Qed.

Ltac name_done :=
  let H := fresh "H" in
  intros H; injection H as <-; reflexivity.

(** Whatever a check returns carries the check's own name. *)
Section CheckNames.

Variable ps : list TraffickingPayload.
Variable campaign : Dict.
Variable r : QAResult.

Lemma check_tracking_name :
  check_tracking ps campaign = Ok r -> check r = "Tracking".
Proof. unfold check_tracking. name_done. Qed.

Lemma check_targeting_name :
  check_targeting ps campaign = Ok r -> check r = "Targeting".
Proof.
  unfold check_targeting. cbv zeta.
  destruct (negb (truthy (get campaign "targeting_geo" PNone))); name_done.
Qed.

Lemma check_frequency_cap_name :
  check_frequency_cap ps campaign = Ok r -> check r = "Frequency Cap".
Proof.
  unfold check_frequency_cap. cbv zeta.
  destruct (or_else _ _) as [[|] | e]; cbv [mbind res_mbind res_bind];
    [name_done | name_done | discriminate].
Qed.

Lemma check_content_exclusions_name :
  check_content_exclusions ps campaign = Ok r ->
  check r = "Content Exclusions".
Proof.
  unfold check_content_exclusions. cbv zeta.
  destruct (or_else _ _) as [[|] | e]; cbv [mbind res_mbind res_bind];
    [name_done | name_done | discriminate].
Qed.

Lemma check_landing_page_name :
  check_landing_page ps campaign = Ok r -> check r = "Landing Page".
Proof.
  unfold check_landing_page. cbv zeta.
  destruct (py_startswith _ _) as [[|] | e];
    cbv [mbind res_mbind res_bind negb];
    [name_done | name_done | discriminate].
Qed.

Lemma check_taxonomy_name :
  check_taxonomy ps campaign = Ok r -> check r = "Taxonomy Validation".
Proof. unfold check_taxonomy. apply taxonomy_loop_name. Qed.

Lemma check_floodlight_tags_name :
  check_floodlight_tags ps campaign = Ok r -> check r = "Floodlight Tags".
Proof. unfold check_floodlight_tags. name_done. Qed.

End CheckNames.

(** X21: whenever the evaluator returns, with or without typing of its
    inputs, the names of its results are those of the eight checks in
    declaration order (the single name "Spec Compliance" when there is no
    payload), and the Spec Compliance result is the first and only one of
    that name: it is "Fail" with the details "No payloads to QA." when there
    is no payload and "Pass" otherwise.  The evaluator never returns the
    failed result, with details "Creative matches spec.", that
    [check_spec_compliance] holds for an empty list. *)
Theorem run_all_checks_spec_compliance (ps : list TraffickingPayload)
    (campaign : Dict) (rs : list QAResult) :
  run_all_checks ps campaign = Ok rs ->
  map check rs = match ps with
                 | [] => ["Spec Compliance"]
                 | _ :: _ => check_names
                 end /\
  nth_error rs 0 =
    Some (match ps with
          | [] => mkQA "Spec Compliance" "Fail" "No payloads to QA."
          | _ :: _ => mkQA "Spec Compliance" "Pass" "Creative matches spec."
          end) /\
  ~ In (mkQA "Spec Compliance" "Fail" "Creative matches spec.") rs.
Proof.
  intros H. destruct ps as [|p ps].
  - injection H as <-. split; [reflexivity |]. split; [reflexivity |].
    intros [Heq | []]. discriminate Heq.
  - destruct (run_all_checks_inv p ps campaign rs H)
      as (r1 & r2 & r3 & r4 & r5 & r6 & r7 & r8 &
          -> & H1 & H2 & H3 & H4 & H5 & H6 & H7 & H8).
    injection H1 as <-.
    apply check_tracking_name in H2. apply check_targeting_name in H3.
    apply check_frequency_cap_name in H4.
    apply check_content_exclusions_name in H5.
    apply check_landing_page_name in H6. apply check_taxonomy_name in H7.
    apply check_floodlight_tags_name in H8.
    split; [| split; [reflexivity |]].
    + cbn [map check]. rewrite H2, H3, H4, H5, H6, H7, H8. reflexivity.
    + cbn [In]. intros [Heq | Hrest]; [discriminate Heq |].
      destruct Hrest
        as [Heq | [Heq | [Heq | [Heq | [Heq | [Heq | [Heq | []]]]]]]];
        apply (f_equal check) in Heq; cbn [check] in Heq;
        [ rewrite H2 in Heq | rewrite H3 in Heq | rewrite H4 in Heq
        | rewrite H5 in Heq | rewrite H6 in Heq | rewrite H7 in Heq
        | rewrite H8 in Heq ]; discriminate Heq.
Qed.

Lemma run_all_checks_spec_compliance_sample :
  exists rs,
    run_all_checks [] sample_campaign = Ok rs /\
    map check rs = ["Spec Compliance"] /\
    nth_error rs 0 =
      Some (mkQA "Spec Compliance" "Fail" "No payloads to QA.") /\
    ~ In (mkQA "Spec Compliance" "Fail" "Creative matches spec.") rs.
Proof.
  eexists. split; [reflexivity |].
  apply (run_all_checks_spec_compliance [] sample_campaign). reflexivity.
Defined.

(** * The engines as the orchestrator calls them *)

(** X22: the campaign that [run_pipeline] hands to the engines, built from
    the fields of the campaign record with the demo record in the place of
    an empty one, never carries the record's landing page or language.  So,
    for every campaign record, the Landing Page check passes, also when the
    record's landing page is not HTTPS; the taxonomy string does not depend
    on the ticket and has "ENG" for its language, also when the record names
    another; and for an empty record the taxonomy string is
    "Demo Campaign|US|ENG|DIS|Loki|Acq|ProgDisplay" and the budget 1000. *)
Theorem cmp_mapped_effects (record_fields : Dict)
    (ps : list TraffickingPayload) :
  check_landing_page ps (cmp_mapped record_fields) =
    Ok (mkQA "Landing Page" "Pass" "Click-through URLs act recursively.") /\
  (forall t1 t2,
     build_placement_taxonomy t1 (cmp_mapped record_fields) =
     build_placement_taxonomy t2 (cmp_mapped record_fields)) /\
  (forall t,
     nth_error (taxonomy_fields t (cmp_mapped record_fields)) 2 =
     Some "ENG") /\
  (forall t,
     build_placement_taxonomy t (cmp_mapped ∅) =
     "Demo Campaign|US|ENG|DIS|Loki|Acq|ProgDisplay") /\
  cmp_mapped ∅ !! "budget_usd" = Some (PInt 1000).
Proof.
  unfold cmp_mapped.
  destruct (decide (record_fields = ∅)) as [-> | Hne];
    repeat split; intros; reflexivity.
Qed.

Lemma cmp_mapped_effects_sample :
  spanish_http_record !! "landing_page" = Some (PStr "http://disney.com") /\
  spanish_http_record !! "language" = Some (PStr "SPA") /\
  check_landing_page [sample_payload] (cmp_mapped spanish_http_record) =
    Ok (mkQA "Landing Page" "Pass" "Click-through URLs act recursively.") /\
  nth_error (taxonomy_fields ∅ (cmp_mapped spanish_http_record)) 2 =
    Some "ENG".
Proof.
  split; [reflexivity |]. split; [reflexivity |].
  split;
    apply (cmp_mapped_effects spanish_http_record [sample_payload]).
Defined.

(** X23: the failures that [run_pipeline] collects are exactly the results
    that are not "Pass": whenever the evaluator returns, the list of
    failures is empty if and only if every result is "Pass", and together
    with the passed results it accounts for every result. *)
Theorem failures_complement (ps : list TraffickingPayload) (campaign : Dict)
    (rs : list QAResult) :
  run_all_checks ps campaign = Ok rs ->
  (failures rs = [] <-> all_pass rs = true) /\
  length (failures rs) +
  length (List.filter (fun r => String.eqb (result r) "Pass") rs) =
  length rs.
Proof.
  intros H.
  assert (Hwf : List.Forall
                  (fun r => In (result r) verdicts) rs).
  { destruct ps as [|p ps].
    - injection H as <-.
      apply List.Forall_cons; [cbn; tauto | apply List.Forall_nil].
    - destruct (run_all_checks_inv p ps campaign rs H)
        as (r1 & r2 & r3 & r4 & r5 & r6 & r7 & r8 &
            -> & H1 & H2 & H3 & H4 & H5 & H6 & H7 & H8).
      repeat first [apply List.Forall_nil | apply List.Forall_cons].
      + exact (proj1 (check_spec_compliance_well_formed _ _ _ H1)).
      + exact (proj1 (check_tracking_well_formed _ _ _ H2)).
      + exact (proj1 (check_targeting_well_formed _ _ _ H3)).
      + exact (proj1 (check_frequency_cap_well_formed _ _ _ H4)).
      + exact (proj1 (check_content_exclusions_well_formed _ _ _ H5)).
      + exact (proj1 (check_landing_page_well_formed _ _ _ H6)).
      + exact (proj1 (check_taxonomy_well_formed _ _ _ H7)).
      + exact (proj1 (check_floodlight_tags_well_formed _ _ _ H8)). }
  clear H. unfold failures, all_pass.
  induction Hwf as [|r rs Hr _ IH];
    [cbn [List.filter forallb length];
     split; [split; reflexivity | reflexivity] |].
  cbn [List.filter forallb].
  destruct IH as [IHiff IHlen].
  cbn [verdicts In] in Hr.
  destruct Hr as [Hr | [Hr | [Hr | []]]]; rewrite <- Hr.
  - change (existsb (String.eqb "Pass") ["Fail"; "Needs Review"]) with false.
    change (String.eqb "Pass" "Pass") with true.
    cbn [andb length]. split; [exact IHiff | lia].
  - change (existsb (String.eqb "Fail") ["Fail"; "Needs Review"]) with true.
    change (String.eqb "Fail" "Pass") with false.
    cbn [andb length]. split; [split; discriminate | lia].
  - change (existsb (String.eqb "Needs Review") ["Fail"; "Needs Review"])
      with true.
    change (String.eqb "Needs Review" "Pass") with false.
    cbn [andb length]. split; [split; discriminate | lia].
Qed.

Lemma failures_complement_sample :
  exists rs,
    run_all_checks [sample_payload] sponsorship_campaign = Ok rs /\
    (failures rs = [] <-> all_pass rs = true) /\
    length (failures rs) +
    length (List.filter (fun r => String.eqb (result r) "Pass") rs) =
    length rs.
Proof.
  eexists. split; [reflexivity |].
  apply (failures_complement [sample_payload] sponsorship_campaign).
  reflexivity.
Defined.
